(** * Smart Card Detective: the restart-driven core of [scd.c]

    A shallow embedding of [main], [InitSCD] and the terminal-reset
    interrupt routine [ISR(INT0_vect)] of [trunk/avrsrc/scd.c], followed by
    the properties of the transaction-log flush, of the warm-reset flag and
    of the application dispatch.

    Conventions.
    - A [uint8_t] or [uint16_t] value is a [Z]; a conversion to the narrow
      type is written [u8] or [u16] at the place where the C code performs
      it.
    - The EEPROM is a finite map from byte addresses to bytes; a cell that
      was never written reads as the erased value [0xFF].
    - Every call of [eeprom_write_byte] and [eeprom_write_block] made by
      [scd.c] is also appended, byte by byte, to a trace ([eelog]), so that
      the order and the addresses of the writes can be stated.
    - The constants of [scd_values.h] and [apps.h], the two serializers of
      [emv.c] and the application entry points of [apps.c] are not part of
      [scd.c]; they are parameters of the development. *)

From stdpp Require Import base gmap list.
From Stdlib Require Import ZArith Lia.

Local Open Scope Z_scope.

(** ** Machine integers *)

Definition u8 (x : Z) : Z := x mod 256.
Definition u16 (x : Z) : Z := x mod 65536.

(** ** What [scd.c] takes from its headers *)

(** The addresses of [scd_values.h], the application identifiers of
    [apps.h], and the command and response structures of [emv.h] with
    their serializers. A serializer returns [None] where the C function
    returns [NULL], and otherwise the byte stream whose length it stores in
    [lStream]. *)
Class Headers := {
  EEPROM_WARM_RESET : Z;
  EEPROM_APPLICATION : Z;
  EEPROM_COUNTER : Z;
  EEPROM_TLOG_POINTER_HI : Z;
  EEPROM_TLOG_POINTER_LO : Z;
  EEPROM_TLOG_DATA : Z;
  EEPROM_MAX_ADDRESS : Z;
  WARM_RESET_VALUE : Z;
  APP_STORE_PIN : Z;
  APP_LOG_FORWARD : Z;
  APP_FW_MODIFY_PIN : Z;
  APP_FILTER_GENERATEAC : Z;
  APP_FILTER_LOG : Z;
  APP_TERMINAL : Z;
  APP_VIRTUAL_SERIAL_PORT : Z;
  APP_ERASE_EEPROM : Z;
  CAPDU : Type;
  RAPDU : Type;
  SerializeCommand : CAPDU -> option (list Z);
  SerializeResponse : RAPDU -> option (list Z)
}.

(** The entry points reached from the [switch] of [main]. *)
Inductive proc :=
| StorePIN | ForwardData | ForwardAndChangePIN | FilterGenerateAC
| FilterAndLog | Terminal | VirtualSerial.

(** The classification of a terminal reset, as the handler leaves it in
    [warmResetByte]. *)
Inductive reset_kind := Cold | Warm.

(** The four 5-byte markers declared at the top of [ISR(INT0_vect)]. *)
Definition cmdstr : list Z := [0xCC; 0xCC; 0xCC; 0xCC; 0xCC].
Definition rspstr : list Z := [0xAA; 0xAA; 0xAA; 0xAA; 0xAA].
Definition appstr : list Z := [0xDD; 0xDD; 0xDD; 0xDD; 0xDD].
Definition endstr : list Z := [0xBB; 0xBB; 0xBB; 0xBB; 0xBB].

(** The bytes [bs] laid out from address [a] upwards. *)
Fixpoint place (a : Z) (bs : list Z) : list (Z * Z) :=
  match bs with
  | [] => []
  | b :: r => (a, b) :: place (a + 1) r
  end.

Section SCD.

Context {H : Headers}.

(** A command/response pair, [CRP] of [emv.h]. *)
Record CRP := { cmd : CAPDU; response : RAPDU }.

(** ** The state *)

(** The EEPROM with the trace of its writes, and the globals of [scd.c].
    [transactionData] lists the exchanges that the slots of the array point
    to, slot 0 first; the loop of the handler visits the first
    [nTransactions] of them. [released] lists the slots on which [FreeCRP]
    was called, [calls] the entry points that [main] has called, [wdt] and
    [int0] tell whether the watchdog is armed and INT0 enabled. *)
Record machine := Machine {
  eeprom : gmap Z Z;
  eelog : list (Z * Z);
  warmResetByte : Z;
  transactionData : list CRP;
  nTransactions : nat;
  released : list nat;
  lcdAvailable : Z;
  nCounter : Z;
  selected : Z;
  wdt : bool;
  int0 : bool;
  calls : list proc
}.

Definition set_eeprom (m : machine) (e : gmap Z Z) (l : list (Z * Z)) :=
  Machine e l (warmResetByte m) (transactionData m) (nTransactions m)
          (released m) (lcdAvailable m) (nCounter m) (selected m) (wdt m)
          (int0 m) (calls m).
Definition set_warmResetByte (m : machine) (w : Z) :=
  Machine (eeprom m) (eelog m) w (transactionData m) (nTransactions m)
          (released m) (lcdAvailable m) (nCounter m) (selected m) (wdt m)
          (int0 m) (calls m).
Definition set_nTransactions (m : machine) (n : nat) :=
  Machine (eeprom m) (eelog m) (warmResetByte m) (transactionData m) n
          (released m) (lcdAvailable m) (nCounter m) (selected m) (wdt m)
          (int0 m) (calls m).
Definition set_released (m : machine) (r : list nat) :=
  Machine (eeprom m) (eelog m) (warmResetByte m) (transactionData m)
          (nTransactions m) r (lcdAvailable m) (nCounter m) (selected m)
          (wdt m) (int0 m) (calls m).
Definition set_lcdAvailable (m : machine) (l : Z) :=
  Machine (eeprom m) (eelog m) (warmResetByte m) (transactionData m)
          (nTransactions m) (released m) l (nCounter m) (selected m) (wdt m)
          (int0 m) (calls m).
Definition set_nCounter (m : machine) (c : Z) :=
  Machine (eeprom m) (eelog m) (warmResetByte m) (transactionData m)
          (nTransactions m) (released m) (lcdAvailable m) c (selected m)
          (wdt m) (int0 m) (calls m).
Definition set_selected (m : machine) (s : Z) :=
  Machine (eeprom m) (eelog m) (warmResetByte m) (transactionData m)
          (nTransactions m) (released m) (lcdAvailable m) (nCounter m) s
          (wdt m) (int0 m) (calls m).
Definition set_wdt (m : machine) (b : bool) :=
  Machine (eeprom m) (eelog m) (warmResetByte m) (transactionData m)
          (nTransactions m) (released m) (lcdAvailable m) (nCounter m)
          (selected m) b (int0 m) (calls m).
Definition set_int0 (m : machine) (b : bool) :=
  Machine (eeprom m) (eelog m) (warmResetByte m) (transactionData m)
          (nTransactions m) (released m) (lcdAvailable m) (nCounter m)
          (selected m) (wdt m) b (calls m).
Definition set_calls (m : machine) (c : list proc) :=
  Machine (eeprom m) (eelog m) (warmResetByte m) (transactionData m)
          (nTransactions m) (released m) (lcdAvailable m) (nCounter m)
          (selected m) (wdt m) (int0 m) c.

(** ** EEPROM primitives of avr-libc *)

Definition eeprom_read_byte (m : machine) (a : Z) : Z :=
  default 0xFF (eeprom m !! a).

Definition eeprom_write_byte (m : machine) (a v : Z) : machine :=
  set_eeprom m (<[a := v]> (eeprom m)) (eelog m ++ [(a, v)]).

(** [eeprom_write_block src dst n] with [n] the length of [src]. *)
Fixpoint eeprom_write_block (m : machine) (src : list Z) (dst : Z) : machine :=
  match src with
  | [] => m
  | b :: r => eeprom_write_block (eeprom_write_byte m dst b) r (dst + 1)
  end.

Definition wdt_enable (m : machine) : machine := set_wdt m true.
Definition wdt_disable (m : machine) : machine := set_wdt m false.

(** [FreeCRP(transactionData[i])]: the record in slot [i] is released. *)
Definition FreeCRP (i : nat) (m : machine) : machine :=
  set_released m (released m ++ [i]).

(** ** [InitSCD] *)

(** [lcd] is the value returned by [CheckLCD()]. Interrupt sources are
    masked, the watchdog is switched off, the warm-reset byte and the
    transaction counter are read back, and the log index is reset. *)
Definition InitSCD (m : machine) (lcd : Z) : machine :=
  let m := set_int0 m false in
  let m := wdt_disable m in
  let m := set_warmResetByte m (eeprom_read_byte m EEPROM_WARM_RESET) in
  let m := set_nCounter m (eeprom_read_byte m EEPROM_COUNTER) in
  let m := set_nTransactions m 0%nat in
  if lcd =? 0 then set_lcdAvailable m 1 else set_lcdAvailable m 0.

(** ** [ISR(INT0_vect)]: the log flush *)

(** Lines 350-354: the log pointer is read back as a hi/lo pair; the erased
    pattern [0xFFFF] stands for a pointer that was never written. *)
Definition tlog_pointer (m : machine) : Z :=
  let addrHi := eeprom_read_byte m EEPROM_TLOG_POINTER_HI in
  let addrLo := eeprom_read_byte m EEPROM_TLOG_POINTER_LO in
  let addrStream := u16 (Z.lor (Z.shiftl addrHi 8) addrLo) in
  if addrStream =? 0xFFFF then u16 EEPROM_TLOG_DATA else addrStream.

(** One of the two [if(stream != NULL) { ... }] blocks of the loop body:
    marker, payload, and the test that leaves the loop. The boolean is
    [true] when the [break] is taken. *)
Definition log_stream (marker : list Z) (stream : option (list Z))
    (addrStream : Z) (m : machine) : machine * Z * bool :=
  match stream with
  | None => (m, addrStream, false)
  | Some s =>
      let m := eeprom_write_block m marker addrStream in
      let addrStream := u16 (addrStream + 5) in
      let m := eeprom_write_block m s addrStream in
      let lStream := Z.of_nat (length s) in
      let addrStream := u16 (addrStream + lStream) in
      (m, addrStream, EEPROM_MAX_ADDRESS <? addrStream)
  end.

(** Lines 366-395: the [for] loop over the logged exchanges, [i] being the
    index of the head of [recs]. *)
Fixpoint log_loop (recs : list CRP) (i : nat) (addrStream : Z) (m : machine)
    : machine * Z :=
  match recs with
  | [] => (m, addrStream)
  | r :: rest =>
      match log_stream cmdstr (SerializeCommand (cmd r)) addrStream m with
      | (m, addrStream, true) => (m, addrStream)
      | (m, addrStream, false) =>
          match log_stream rspstr (SerializeResponse (response r)) addrStream m with
          | (m, addrStream, true) => (m, addrStream)
          | (m, addrStream, false) =>
              log_loop rest (S i) addrStream (FreeCRP i m)
          end
      end
  end.

(** Lines 360-399: application marker and id, the exchanges, the end
    marker. The second component is [addrStream] after the end marker. *)
Definition write_log (m : machine) (addrStream : Z) : machine * Z :=
  let m := eeprom_write_block m appstr addrStream in
  let addrStream := u16 (addrStream + 5) in
  let m := eeprom_write_byte m addrStream (selected m) in
  let addrStream := u16 (addrStream + 1) in
  let '(m, addrStream) :=
    log_loop (take (nTransactions m) (transactionData m)) 0%nat addrStream m in
  let m := eeprom_write_block m endstr addrStream in
  (m, u16 (addrStream + 5)).

(** Lines 402-405: the pointer is split in two bytes and the low byte is
    moved to the following multiple of 8. *)
Definition next_page (addrStream : Z) : Z * Z :=
  let addrHi := u8 (Z.land (Z.shiftr addrStream 8) 0x00FF) in
  let addrLo := u8 (Z.land addrStream 0x00FF) in
  let addrLo := u8 (addrLo + 8) in
  let addrLo := Z.land addrLo 0xF8 in
  (addrHi, addrLo).

(** Lines 402-408: both bytes are stored. *)
Definition update_pointer (m : machine) (addrStream : Z) : machine :=
  let '(addrHi, addrLo) := next_page addrStream in
  let m := eeprom_write_byte m EEPROM_TLOG_POINTER_HI addrHi in
  eeprom_write_byte m EEPROM_TLOG_POINTER_LO addrLo.

(** Lines 350-409. *)
Definition flush (m : machine) : machine :=
  let addrStream := tlog_pointer m in
  if (0 <? nTransactions m)%nat && (addrStream <? EEPROM_MAX_ADDRESS) then
    let '(m, addrStream) := write_log m addrStream in
    update_pointer m addrStream
  else m.

(** ** [ISR(INT0_vect)]: the warm-reset flag *)

(** Lines 411-434; [freq] is the value returned by [GetTerminalFreq()]. *)
Definition classify (m : machine) (freq : Z) : machine :=
  if freq =? 0 then
    eeprom_write_byte m EEPROM_WARM_RESET 0
  else
    let m := set_warmResetByte m (eeprom_read_byte m EEPROM_WARM_RESET) in
    if warmResetByte m =? WARM_RESET_VALUE then
      eeprom_write_byte m EEPROM_WARM_RESET 0
    else
      eeprom_write_byte m EEPROM_WARM_RESET (u8 WARM_RESET_VALUE).

(** What the handler has found: [Warm] when the byte it read back into
    [warmResetByte] is the warm-reset value, [Cold] otherwise. *)
Definition reported (m : machine) : reset_kind :=
  if warmResetByte m =? WARM_RESET_VALUE then Warm else Cold.

(** The whole routine. *)
Definition INT0_vect (m : machine) (freq : Z) : machine :=
  let m := wdt_disable m in
  let m := eeprom_write_byte m EEPROM_COUNTER (nCounter m) in
  let m := flush m in
  let m := classify m freq in
  let m := set_int0 m false in
  wdt_enable m.

(** ** [main] *)

(** [app_body p m] is the state in which the entry point [p], started in
    [m], returns; [None] when it does not return. *)
Variable app_body : proc -> machine -> option machine.

(** Where control ends up: inside an application that was entered in state
    [m] and does not return, or in the endless loop of [SwitchLeds]. *)
Inductive outcome :=
| Inside (p : proc) (m : machine)
| Switching (m : machine).

Definition call (p : proc) (m : machine) (k : machine -> outcome) : outcome :=
  let m := set_calls m (calls m ++ [p]) in
  match app_body p m with
  | Some m' => k m'
  | None => Inside p m
  end.

(** The [default:] branch of the [switch], lines 170-173. *)
Definition switch_default (m : machine) : outcome :=
  let m := set_selected m (u8 APP_TERMINAL) in
  let m := eeprom_write_byte m EEPROM_APPLICATION (selected m) in
  call Terminal m Switching.

(** Lines 141-179: the [switch] and the call of [SwitchLeds] after it. The
    case of [APP_VIRTUAL_SERIAL_PORT] carries no [break]. *)
Definition dispatch (m : machine) : outcome :=
  let s := selected m in
  if s =? APP_STORE_PIN then call StorePIN m Switching
  else if s =? APP_LOG_FORWARD then call ForwardData m Switching
  else if s =? APP_FW_MODIFY_PIN then call ForwardAndChangePIN m Switching
  else if s =? APP_FILTER_GENERATEAC then call FilterGenerateAC m Switching
  else if s =? APP_FILTER_LOG then call FilterAndLog m Switching
  else if s =? APP_TERMINAL then call Terminal m Switching
  else if s =? APP_VIRTUAL_SERIAL_PORT then call VirtualSerial m switch_default
  else switch_default m.

(** [SelectApplication]: 0 when the LCD is missing, otherwise [i + 1] for
    the menu entry [i] on which button D is pressed. *)
Definition SelectApplication (m : machine) (i : Z) : Z :=
  if lcdAvailable m =? 0 then 0 else u8 (i + 1).

(** Modelled from the spec: [EraseEEPROM] of [scd_hal.c] is not in [scd.c];
    the spec says that the erase choice wipes the persistent store, so every
    cell goes back to the erased value. *)
Definition EraseEEPROM (m : machine) : machine :=
  set_eeprom m ∅ (eelog m).

(** What [main] reads from the outside at boot: the level of button B, the
    status of [CheckLCD()] and the entry picked in the menu. *)
Record boot_inputs := {
  GetButtonB : Z;
  CheckLCD : Z;
  menu_entry : Z
}.

(** Lines 98-138: everything [main] does before the [switch]. *)
Definition boot (m : machine) (inp : boot_inputs) : machine :=
  let m := InitSCD m (CheckLCD inp) in
  if GetButtonB inp =? 0 then
    let m := set_selected m (SelectApplication m (menu_entry inp)) in
    let m :=
      if selected m =? APP_ERASE_EEPROM then wdt_enable (EraseEEPROM m)
      else eeprom_write_byte m EEPROM_APPLICATION (selected m) in
    wdt_enable m
  else set_selected m (eeprom_read_byte m EEPROM_APPLICATION).

Definition main (m : machine) (inp : boot_inputs) : outcome :=
  dispatch (boot m inp).

(** ** Vocabulary of the statements *)

(** The 16-bit value held by the hi/lo pair of the store. *)
Definition stored_cursor (m : machine) : Z :=
  u16 (Z.lor (Z.shiftl (eeprom_read_byte m EEPROM_TLOG_POINTER_HI) 8)
             (eeprom_read_byte m EEPROM_TLOG_POINTER_LO)).

(** The framed entries that one exchange contributes to the log: marker and
    payload of the command, marker and payload of the response, each one
    only when its serializer delivers a stream. *)
Definition cmd_entry (r : CRP) : list (list Z) :=
  match SerializeCommand (cmd r) with
  | Some s => [cmdstr ++ s]
  | None => []
  end.
Definition rsp_entry (r : CRP) : list (list Z) :=
  match SerializeResponse (response r) with
  | Some s => [rspstr ++ s]
  | None => []
  end.
Definition entries (recs : list CRP) : list (list Z) :=
  flat_map (fun r => cmd_entry r ++ rsp_entry r) recs.

(** The exchanges that the loop of the handler visits. *)
Definition logged (m : machine) : list CRP :=
  take (nTransactions m) (transactionData m).

(** A log image: application marker, application id, entries, end marker. *)
Definition image (app : Z) (es : list (list Z)) : list Z :=
  appstr ++ [app] ++ concat es ++ endstr.

(** The two cells written by [update_pointer]. *)
Definition pointer_cells (addrStream : Z) : list (Z * Z) :=
  [(EEPROM_TLOG_POINTER_HI, fst (next_page addrStream));
   (EEPROM_TLOG_POINTER_LO, snd (next_page addrStream))].

(** A serialized stream has a length that [lStream], a [uint8_t], can hold. *)
Definition short (o : option (list Z)) : bool :=
  match o with
  | Some s => Z.of_nat (length s) <=? 255
  | None => true
  end.
Definition fits (r : CRP) : bool :=
  short (SerializeCommand (cmd r)) && short (SerializeResponse (response r)).

(** How many entries go out when the loop starts with the cursor at [a]:
    entries are written until one leaves the cursor above
    [EEPROM_MAX_ADDRESS]; that one is the last. *)
Fixpoint emitted (es : list (list Z)) (a : Z) : nat :=
  match es with
  | [] => 0%nat
  | e :: r =>
      let a' := a + Z.of_nat (length e) in
      if EEPROM_MAX_ADDRESS <? a' then 1%nat else S (emitted r a')
  end.

(** The state after a sequence of terminal resets, [freqs] being the values
    of [GetTerminalFreq()] at each of them. *)
Definition resets (m : machine) (freqs : list Z) : machine :=
  foldl classify m freqs.

(** The identifiers that have a [case] of their own in [main]. *)
Definition case_labels : list Z :=
  [APP_STORE_PIN; APP_LOG_FORWARD; APP_FW_MODIFY_PIN; APP_FILTER_GENERATEAC;
   APP_FILTER_LOG; APP_TERMINAL; APP_VIRTUAL_SERIAL_PORT].

Definition known_app (s : Z) : bool :=
  bool_decide (s ∈ case_labels).

End SCD.

(** ** A concrete build

    [bench] is one assignment of the constants, for the 4 KB EEPROM of the
    device: the fixed cells at the bottom, the log region from [0x80] to
    [0xFE0], and the identifiers numbered as [SelectApplication] returns
    them. A command or a response is given by the stream that its
    serializer yields, [None] for a stream that cannot be built. *)

Definition bench : Headers := {|
  EEPROM_WARM_RESET := 0x00;
  EEPROM_APPLICATION := 0x10;
  EEPROM_COUNTER := 0x18;
  EEPROM_TLOG_POINTER_HI := 0x28;
  EEPROM_TLOG_POINTER_LO := 0x29;
  EEPROM_TLOG_DATA := 0x80;
  EEPROM_MAX_ADDRESS := 0xFE0;
  WARM_RESET_VALUE := 0xAA;
  APP_STORE_PIN := 1;
  APP_LOG_FORWARD := 2;
  APP_FW_MODIFY_PIN := 3;
  APP_FILTER_GENERATEAC := 4;
  APP_FILTER_LOG := 5;
  APP_TERMINAL := 6;
  APP_VIRTUAL_SERIAL_PORT := 7;
  APP_ERASE_EEPROM := 8;
  CAPDU := option (list Z);
  RAPDU := option (list Z);
  SerializeCommand := fun c => c;
  SerializeResponse := fun r => r
|}.

(** A store that holds the log pointer [c] and the application id [app]. *)
Definition bench_store (c app : Z) : gmap Z Z :=
  {[ 0x28 := c / 256; 0x29 := c mod 256; 0x10 := app ]}.

(** A machine in the middle of a run, with [recs] logged so far. *)
Definition bench_machine (e : gmap Z Z) (recs : list (@CRP bench))
    : @machine bench :=
  {| eeprom := e; eelog := []; warmResetByte := 0;
     transactionData := recs; nTransactions := length recs; released := [];
     lcdAvailable := 1; nCounter := 0; selected := 2;
     wdt := false; int0 := true; calls := [] |}.

(** The two exchanges of the scenario: a SELECT answered by [90 00] and a
    GET RESPONSE answered by six bytes. *)
Definition select_crp : @CRP bench :=
  @Build_CRP bench (Some [0x00; 0xA4; 0x04; 0x00; 0x0E]) (Some [0x90; 0x00]).
Definition get_response_crp : @CRP bench :=
  @Build_CRP bench (Some [0x00; 0xC0; 0x00; 0x00; 0x0E])
                   (Some [0xDE; 0xAD; 0xBE; 0xEF; 0x90; 0x00]).

(** Applications that keep control, and applications that all return at
    once. *)
Definition stay : proc -> @machine bench -> option (@machine bench) :=
  fun _ _ => None.
Definition leave : proc -> @machine bench -> option (@machine bench) :=
  fun _ m => Some m.

(** ** The store against the trace *)

(** The EEPROM after the writes [l], oldest first. *)
Definition apply_writes (l : list (Z * Z)) (e : gmap Z Z) : gmap Z Z :=
  foldl (fun e w => <[w.1 := w.2]> e) e l.

(** ** [SelectApplication], button by button *)

(** The masks of [scd_io.h] for buttons C and D and the number of menu
    entries of [apps.h]. *)
Class Menu := {
  BUTTON_C : Z;
  BUTTON_D : Z;
  APPLICATION_COUNT : Z
}.

(** What [SelectApplication] prints on the LCD: the empty line, the three
    prompts, and [appStrings[i]]. *)
Inductive lcd_line :=
| LineEmpty | LineScroll | LineSelect | LineAvailable | LineApp (i : Z).

(** Where [SelectApplication] waits for the next [GetButton()]: in one of
    the three [do ... while] loops that follow a prompt, or in the inner
    [while(1)] of the [for] loop with entry [i] on display. *)
Inductive menu_pc :=
| AtScroll | AtSelect | AtAvailable | AtEntry (i : Z).

(** [SelectApplication] has returned [r], with [shown] on the LCD and the
    readings [rest] not consumed; or it is still waiting. *)
Inductive menu_result :=
| Chosen (r : Z) (shown : list lcd_line) (rest : list Z)
| Waiting (pc : menu_pc) (shown : list lcd_line).

Section MENU.

Context {H : Headers} {B : Menu}.

(** [(tmp & mask) != 0]. *)
Definition pressed (mask tmp : Z) : bool := negb (Z.land tmp mask =? 0).

(** The head of the [for] loop with index [i]: the next entry is put on
    display, or the loop is over and the outer [while(1)] starts again with
    the first prompt. *)
Definition for_entry (i : Z) (shown : list lcd_line)
    : menu_pc * list lcd_line :=
  if i <? APPLICATION_COUNT then (AtEntry i, shown ++ [LineApp i])
  else (AtScroll, shown ++ [LineScroll]).

(** Lines 205-235, one reading of [GetButton()] after the other. In an
    entry, button D is looked at before button C. *)
Fixpoint menu_run (pc : menu_pc) (shown : list lcd_line) (samples : list Z)
    : menu_result :=
  match samples with
  | [] => Waiting pc shown
  | tmp :: rest =>
      match pc with
      | AtScroll =>
          if pressed BUTTON_C tmp
          then menu_run AtSelect (shown ++ [LineSelect]) rest
          else menu_run AtScroll shown rest
      | AtSelect =>
          if pressed BUTTON_C tmp
          then menu_run AtAvailable (shown ++ [LineAvailable]) rest
          else menu_run AtSelect shown rest
      | AtAvailable =>
          if pressed BUTTON_C tmp
          then let '(pc', shown') := for_entry 0 shown in
               menu_run pc' shown' rest
          else menu_run AtAvailable shown rest
      | AtEntry i =>
          if pressed BUTTON_D tmp then Chosen (u8 (i + 1)) shown rest
          else if pressed BUTTON_C tmp
          then let '(pc', shown') := for_entry (u8 (i + 1)) shown in
               menu_run pc' shown' rest
          else menu_run (AtEntry i) shown rest
      end
  end.

(** Lines 195-238; [samples] are the values that the successive calls of
    [GetButton()] return. *)
Definition SelectApplication_loop (m : machine) (samples : list Z)
    : menu_result :=
  if lcdAvailable m =? 0 then Chosen 0 [] samples
  else menu_run AtScroll [LineEmpty; LineScroll] samples.

(** In an entry the index is one of the menu and the entry on display is
    the last line shown. *)
Definition menu_inv (pc : menu_pc) (shown : list lcd_line) : Prop :=
  match pc with
  | AtEntry i => 0 <= i < APPLICATION_COUNT /\ last shown = Some (LineApp i)
  | _ => True
  end.

(** A reading with neither button C nor button D. *)
Definition idle (tmp : Z) : bool :=
  negb (pressed BUTTON_C tmp) && negb (pressed BUTTON_D tmp).

End MENU.

(** The buttons on port F, D on bit 0 and C on bit 1, and a menu of eight
    entries. *)
Definition bench_menu : Menu :=
  {| BUTTON_C := 0x02; BUTTON_D := 0x01; APPLICATION_COUNT := 8 |}.

(** Closes a goal on concrete data by evaluation. *)
Ltac evaluate :=
  vm_compute;
  repeat match goal with |- _ /\ _ => split end;
  first [reflexivity | discriminate | lia | (intro; discriminate)].

(** * Properties *)

Section Properties.

Context {H : Headers}.

(** ** Machine integers *)

Lemma u16_small (x : Z) : 0 <= x < 65536 -> u16 x = x.
Proof. intros Hx. unfold u16. apply Z.mod_small. exact Hx. Qed.

Lemma u8_small (x : Z) : 0 <= x < 256 -> u8 x = x.
Proof. intros Hx. unfold u8. apply Z.mod_small. exact Hx. Qed.

Lemma u16_range (x : Z) : 0 <= u16 x < 65536.
Proof. unfold u16. apply Z.mod_pos_bound. lia. Qed.

(** A property of bytes that holds on each of the 256 values holds on every
    byte. *)
Lemma byte_cases (P : Z -> bool) :
  forallb P (map Z.of_nat (seq 0 256)) = true ->
  forall x, 0 <= x < 256 -> P x = true.
Proof.
  intros Hall x Hx.
  rewrite forallb_forall in Hall. apply Hall.
  apply in_map_iff. exists (Z.to_nat x). split; [lia|].
  apply in_seq. lia.
Qed.

(** The hi/lo pair read as one number: the two bytes do not overlap. *)
Lemma lor_hi_lo (hi lo : Z) :
  0 <= lo < 256 -> Z.lor (Z.shiftl hi 8) lo = hi * 256 + lo.
Proof.
  intros Hlo.
  assert (Hdisj : Z.land (Z.shiftl hi 8) lo = 0).
  { apply Z.bits_inj'. intros n Hn.
    rewrite Z.land_spec, Z.bits_0.
    destruct (Z.lt_ge_cases n 8) as [Hlt|Hge].
    - rewrite Z.shiftl_spec_low by lia. reflexivity.
    - assert (Z.testbit lo n = false) as ->; [|apply andb_false_r].
      destruct (Z.eq_dec lo 0) as [->|Hnz]; [apply Z.bits_0|].
      apply Z.bits_above_log2; [lia|].
      apply Z.log2_lt_pow2; [lia|].
      apply Z.lt_le_trans with (2 ^ 8); [simpl; lia|].
      apply Z.pow_le_mono_r; lia. }
  rewrite <- Z.lxor_lor by exact Hdisj.
  rewrite <- Z.add_nocarry_lxor by exact Hdisj.
  rewrite Z.shiftl_mul_pow2 by lia. reflexivity.
Qed.

Lemma split_hi (c : Z) : 0 <= c < 65536 -> Z.land (Z.shiftr c 8) 255 = c / 256.
Proof.
  intros Hc. change 255 with (Z.ones 8).
  rewrite Z.land_ones by lia. rewrite Z.shiftr_div_pow2 by lia.
  change (2 ^ 8) with 256. apply Z.mod_small.
  split; [apply Z.div_pos; lia|apply Z.div_lt_upper_bound; lia].
Qed.

Lemma split_lo (c : Z) : Z.land c 255 = c mod 256.
Proof. change 255 with (Z.ones 8). rewrite Z.land_ones by lia. reflexivity. Qed.

(** The new low byte, as a function of the old one. *)
Lemma page_lo (l : Z) :
  0 <= l < 256 ->
  Z.land (u8 (u8 l + 8)) 248 = if l <? 248 then 8 * (l / 8 + 1) else 0.
Proof.
  intros Hl.
  apply Z.eqb_eq.
  apply (byte_cases (fun l =>
    Z.land (u8 (u8 l + 8)) 248 =? if l <? 248 then 8 * (l / 8 + 1) else 0));
    [vm_compute; reflexivity|exact Hl].
Qed.

(** [next_page] on a 16-bit cursor. *)
Lemma next_page_spec (c : Z) :
  0 <= c < 65536 ->
  next_page c =
    (c / 256, if c mod 256 <? 248 then 8 * (c mod 256 / 8 + 1) else 0).
Proof.
  intros Hc. unfold next_page.
  assert (Hl : 0 <= c mod 256 < 256) by (apply Z.mod_pos_bound; lia).
  assert (Hh : 0 <= c / 256 < 256)
    by (split; [apply Z.div_pos; lia|apply Z.div_lt_upper_bound; lia]).
  rewrite split_hi by exact Hc. rewrite split_lo.
  rewrite (u8_small (c / 256)) by exact Hh.
  rewrite page_lo by exact Hl. reflexivity.
Qed.

(** ** EEPROM writes *)

Lemma place_app (a : Z) (x y : list Z) :
  place a (x ++ y) = place a x ++ place (a + Z.of_nat (length x)) y.
Proof.
  revert a. induction x as [|b x IH]; intros a; simpl.
  - f_equal. lia.
  - rewrite IH. do 3 f_equal. lia.
Qed.

Lemma place_length (a : Z) (x : list Z) : length (place a x) = length x.
Proof. revert a. induction x as [|b x IH]; intros a; simpl; [|rewrite IH]; reflexivity. Qed.

Lemma read_write_same (m : machine) (a v : Z) :
  eeprom_read_byte (eeprom_write_byte m a v) a = v.
Proof. unfold eeprom_read_byte. simpl. rewrite lookup_insert_eq. reflexivity. Qed.

Lemma read_write_other (m : machine) (a b v : Z) :
  a <> b -> eeprom_read_byte (eeprom_write_byte m a v) b = eeprom_read_byte m b.
Proof.
  intros Hne. unfold eeprom_read_byte. simpl.
  rewrite lookup_insert_ne by exact Hne. reflexivity.
Qed.

(** A block write extends the trace by the block and touches nothing but
    the EEPROM. *)
Lemma write_block_spec (s : list Z) :
  forall (m : machine) (a : Z),
    let m' := eeprom_write_block m s a in
    eelog m' = eelog m ++ place a s /\
    released m' = released m /\
    selected m' = selected m /\
    nTransactions m' = nTransactions m /\
    transactionData m' = transactionData m.
Proof.
  induction s as [|b s IH]; intros m a; simpl.
  - rewrite app_nil_r. repeat split.
  - destruct (IH (eeprom_write_byte m a b) (a + 1)) as (Hl & Hr & Hs & Hn & Ht).
    rewrite Hl, Hr, Hs, Hn, Ht. simpl.
    rewrite <- app_assoc. repeat split.
Qed.

Lemma log_stream_some (marker s : list Z) (a : Z) (m : machine) :
  length marker = 5%nat ->
  0 <= a -> a + 5 + Z.of_nat (length s) < 65536 ->
  log_stream marker (Some s) a m =
    (eeprom_write_block (eeprom_write_block m marker a) s (a + 5),
     a + 5 + Z.of_nat (length s),
     EEPROM_MAX_ADDRESS <? a + 5 + Z.of_nat (length s)).
Proof.
  intros Hm Ha Hb. unfold log_stream.
  rewrite (u16_small (a + 5)) by lia.
  rewrite u16_small by lia. reflexivity.
Qed.

(** One framed entry: the trace grows by marker and payload, laid out from
    the cursor. *)
Lemma write_entry_spec (marker s : list Z) (a : Z) (m : machine) :
  length marker = 5%nat ->
  let m' := eeprom_write_block (eeprom_write_block m marker a) s (a + 5) in
  eelog m' = eelog m ++ place a (marker ++ s) /\
  released m' = released m /\
  selected m' = selected m /\
  nTransactions m' = nTransactions m /\
  transactionData m' = transactionData m.
Proof.
  intros Hm m'. subst m'.
  destruct (write_block_spec marker m a) as (Hl & Hr & Hs & Hn & Ht).
  destruct (write_block_spec s (eeprom_write_block m marker a) (a + 5))
    as (Hl' & Hr' & Hs' & Hn' & Ht').
  rewrite Hl', Hr', Hs', Hn', Ht', Hl, Hr, Hs, Hn, Ht.
  rewrite place_app, Hm, <- app_assoc. repeat split.
Qed.

(** ** The loop of the handler *)

(** One [if(stream != NULL)] block against the entry it contributes. When
    the block leaves the loop, its entry is the last one that goes out;
    otherwise the cursor is back at or below [EEPROM_MAX_ADDRESS] (or did
    not move). *)
Lemma log_stream_spec (marker : list Z) (o : option (list Z)) (a : Z)
    (m m' : machine) (a' : Z) (b : bool) :
  length marker = 5%nat ->
  0 <= a <= EEPROM_MAX_ADDRESS + 5 ->
  EEPROM_MAX_ADDRESS + 265 < 65536 ->
  short o = true ->
  log_stream marker o a m = (m', a', b) ->
  let e := match o with Some s => [marker ++ s] | None => [] end in
  (eelog m' = eelog m ++ place a (concat e) /\
   released m' = released m /\
   selected m' = selected m /\
   nTransactions m' = nTransactions m /\
   transactionData m' = transactionData m) /\
  a' = a + Z.of_nat (length (concat e)) /\
  (forall es,
     if b then emitted (e ++ es) a = length e /\ e <> []
     else emitted (e ++ es) a = (length e + emitted es a')%nat) /\
  (if b then EEPROM_MAX_ADDRESS < a' <= EEPROM_MAX_ADDRESS + 265
   else 0 <= a' <= EEPROM_MAX_ADDRESS + 5).
Proof.
  intros Hm Ha Hmax Hshort Heq e. subst e.
  destruct o as [s|].
  - simpl in Hshort. apply Z.leb_le in Hshort.
    rewrite log_stream_some in Heq by lia.
    injection Heq as <- <- <-.
    assert (Hlen : Z.of_nat (length (marker ++ s)) = 5 + Z.of_nat (length s))
      by (rewrite length_app, Hm; lia).
    split; [|split; [|split]].
    + simpl concat. rewrite app_nil_r. apply write_entry_spec. exact Hm.
    + simpl concat. rewrite app_nil_r. lia.
    + intros es. simpl app. cbn [emitted]. rewrite Hlen.
      replace (a + (5 + Z.of_nat (length s))) with (a + 5 + Z.of_nat (length s)) by lia.
      destruct (EEPROM_MAX_ADDRESS <? a + 5 + Z.of_nat (length s));
        [split; [reflexivity|discriminate]|reflexivity].
    + destruct (EEPROM_MAX_ADDRESS <? a + 5 + Z.of_nat (length s)) eqn:Hb;
        [apply Z.ltb_lt in Hb|apply Z.ltb_ge in Hb]; lia.
  - simpl in Heq. injection Heq as <- <- <-.
    split; [|split; [|split]].
    + simpl. rewrite app_nil_r. repeat split.
    + simpl. lia.
    + intros es. reflexivity.
    + exact Ha.
Qed.

(** The loop against [emitted]: the trace grows by the first
    [emitted (entries recs) a] entries, laid out without gaps from the
    cursor, and the cursor ends right behind them. *)
Lemma log_loop_spec (recs : list CRP) :
  forall (i : nat) (a : Z) (m : machine),
    0 <= a <= EEPROM_MAX_ADDRESS + 5 ->
    EEPROM_MAX_ADDRESS + 265 < 65536 ->
    forallb fits recs = true ->
    let out := concat (take (emitted (entries recs) a) (entries recs)) in
    let r := log_loop recs i a m in
    eelog r.1 = eelog m ++ place a out /\
    r.2 = a + Z.of_nat (length out) /\
    r.2 <= EEPROM_MAX_ADDRESS + 265 /\
    selected r.1 = selected m /\
    nTransactions r.1 = nTransactions m /\
    transactionData r.1 = transactionData m.
Proof.
  induction recs as [|r rest IH]; intros i a m Ha Hmax Hfit.
  - simpl. rewrite app_nil_r. repeat split; lia.
  - simpl in Hfit. apply andb_prop in Hfit as [Hr Hrest].
    unfold fits in Hr. apply andb_prop in Hr as [Hsc Hsr].
    cbn [log_loop entries flat_map]. fold (entries rest).
    unfold cmd_entry, rsp_entry.
    destruct (log_stream cmdstr (SerializeCommand (cmd r)) a m)
      as [[m1 a1] b1] eqn:E1.
    destruct (log_stream_spec cmdstr _ _ _ _ _ _ eq_refl Ha Hmax Hsc E1)
      as ((Hl1 & _ & Hs1 & Hn1 & Ht1) & Ha1 & Hem1 & Hnb1).
    set (e1 := match SerializeCommand (cmd r) with
               | Some s => [cmdstr ++ s] | None => [] end) in *.
    set (e2 := match SerializeResponse (response r) with
               | Some s => [rspstr ++ s] | None => [] end).
    destruct b1.
    + (* the command leaves the loop *)
      destruct (Hem1 (e2 ++ entries rest)) as [Hk Hne].
      rewrite <- app_assoc, Hk, take_app_length. simpl.
      rewrite Hl1, Hs1, Hn1, Ht1. repeat split; lia.
    + destruct (log_stream rspstr (SerializeResponse (response r)) a1 m1)
        as [[m2 a2] b2] eqn:E2.
      destruct (log_stream_spec rspstr _ _ _ _ _ _ eq_refl Hnb1 Hmax Hsr E2)
        as ((Hl2 & _ & Hs2 & Hn2 & Ht2) & Ha2 & Hem2 & Hnb2).
      fold e2 in Hl2, Ha2, Hem2.
      rewrite <- app_assoc, (Hem1 (e2 ++ entries rest)).
      rewrite take_app_add, concat_app, length_app, place_app.
      destruct b2.
      * (* the response leaves the loop *)
        destruct (Hem2 (entries rest)) as [Hk Hne].
        rewrite Hk, take_app_length. simpl.
        rewrite Hl2, Hl1, Hs2, Hs1, Hn2, Hn1, Ht2, Ht1.
        rewrite <- app_assoc.
        repeat split; rewrite ?Nat2Z.inj_add;
          first [lia|rewrite <- ?Ha1, <- ?Ha2; reflexivity].
      * rewrite (Hem2 (entries rest)).
        rewrite take_app_add, concat_app, length_app, place_app.
        destruct (IH (S i) a2 (FreeCRP i m2) Hnb2 Hmax Hrest)
          as (Hl & Ha' & Hle & Hs & Hn & Ht).
        rewrite Hl, Hs, Hn, Ht. simpl.
        rewrite Hl2, Hl1, Hs2, Hs1, Hn2, Hn1, Ht2, Ht1.
        rewrite <- !app_assoc.
        repeat split; rewrite ?Nat2Z.inj_add;
          first [lia|rewrite <- ?Ha1, <- ?Ha2; reflexivity].
Qed.

(** ** How far the loop gets *)

Lemma emitted_le (es : list (list Z)) :
  forall a, (emitted es a <= length es)%nat.
Proof.
  induction es as [|e r IH]; intros a; simpl; [lia|].
  destruct (EEPROM_MAX_ADDRESS <? a + Z.of_nat (length e)); [lia|].
  specialize (IH (a + Z.of_nat (length e))). lia.
Qed.

(** Before the last emitted entry the cursor never stood above the bound. *)
Lemma emitted_within (es : list (list Z)) :
  forall a j, (0 < j < emitted es a)%nat ->
    a + Z.of_nat (length (concat (take j es))) <= EEPROM_MAX_ADDRESS.
Proof.
  induction es as [|e r IH]; intros a j Hj; simpl in Hj; [lia|].
  destruct (EEPROM_MAX_ADDRESS <? a + Z.of_nat (length e)) eqn:Hb; [lia|].
  apply Z.ltb_ge in Hb.
  destruct j as [|j]; [lia|]. simpl. rewrite length_app, Nat2Z.inj_add.
  destruct j as [|j].
  - rewrite take_0. simpl. lia.
  - specialize (IH (a + Z.of_nat (length e)) (S j)).
    assert (0 < S j < emitted r (a + Z.of_nat (length e)))%nat as Hj' by lia.
    specialize (IH Hj'). lia.
Qed.

(** Entries are held back only once the cursor stands above the bound. *)
Lemma emitted_crossed (es : list (list Z)) :
  forall a, (emitted es a < length es)%nat ->
    EEPROM_MAX_ADDRESS
      < a + Z.of_nat (length (concat (take (emitted es a) es))).
Proof.
  induction es as [|e r IH]; intros a Hk; simpl in Hk; [lia|].
  simpl emitted.
  destruct (EEPROM_MAX_ADDRESS <? a + Z.of_nat (length e)) eqn:Hb.
  - apply Z.ltb_lt in Hb. simpl. rewrite app_nil_r. exact Hb.
  - simpl. rewrite length_app, Nat2Z.inj_add.
    specialize (IH (a + Z.of_nat (length e))).
    assert (emitted r (a + Z.of_nat (length e)) < length r)%nat as Hk' by lia.
    specialize (IH Hk'). lia.
Qed.

(** With room for everything, everything goes out. *)
Lemma emitted_all (es : list (list Z)) :
  forall a, a + Z.of_nat (length (concat es)) <= EEPROM_MAX_ADDRESS ->
    emitted es a = length es.
Proof.
  induction es as [|e r IH]; intros a Hroom; simpl; [reflexivity|].
  simpl in Hroom. rewrite length_app, Nat2Z.inj_add in Hroom.
  destruct (EEPROM_MAX_ADDRESS <? a + Z.of_nat (length e)) eqn:Hb.
  - apply Z.ltb_lt in Hb. lia.
  - f_equal. apply IH. lia.
Qed.

(** With room for everything, every exchange is released, in order. *)
Lemma log_loop_complete (recs : list CRP) :
  forall (i : nat) (a : Z) (m : machine),
    0 <= a <= EEPROM_MAX_ADDRESS + 5 ->
    EEPROM_MAX_ADDRESS + 265 < 65536 ->
    forallb fits recs = true ->
    a + Z.of_nat (length (concat (entries recs))) <= EEPROM_MAX_ADDRESS ->
    released (log_loop recs i a m).1 = released m ++ seq i (length recs).
Proof.
  induction recs as [|r rest IH]; intros i a m Ha Hmax Hfit Hroom.
  - simpl. rewrite app_nil_r. reflexivity.
  - simpl in Hfit. apply andb_prop in Hfit as [Hr Hrest].
    unfold fits in Hr. apply andb_prop in Hr as [Hsc Hsr].
    cbn [entries flat_map] in Hroom. fold (entries rest) in Hroom.
    unfold cmd_entry, rsp_entry in Hroom.
    rewrite !concat_app, !length_app, !Nat2Z.inj_add in Hroom.
    cbn [log_loop].
    destruct (log_stream cmdstr (SerializeCommand (cmd r)) a m)
      as [[m1 a1] b1] eqn:E1.
    destruct (log_stream_spec cmdstr _ _ _ _ _ _ eq_refl Ha Hmax Hsc E1)
      as ((_ & Hr1 & _) & Ha1 & Hem1 & Hnb1).
    destruct b1; [lia|].
    destruct (log_stream rspstr (SerializeResponse (response r)) a1 m1)
      as [[m2 a2] b2] eqn:E2.
    destruct (log_stream_spec rspstr _ _ _ _ _ _ eq_refl Hnb1 Hmax Hsr E2)
      as ((_ & Hr2 & _) & Ha2 & Hem2 & Hnb2).
    destruct b2; [lia|].
    rewrite (IH (S i) a2 (FreeCRP i m2) Hnb2 Hmax Hrest) by lia.
    simpl. rewrite Hr2, Hr1, <- app_assoc. reflexivity.
Qed.

(** A block that wrote an entry and did not leave the loop has the cursor
    at or below the bound. *)
Lemma log_stream_within (marker s : list Z) (a : Z) (m m' : machine) (a' : Z) :
  length marker = 5%nat ->
  0 <= a <= EEPROM_MAX_ADDRESS + 5 ->
  EEPROM_MAX_ADDRESS + 265 < 65536 ->
  short (Some s) = true ->
  log_stream marker (Some s) a m = (m', a', false) ->
  a' <= EEPROM_MAX_ADDRESS.
Proof.
  intros Hm Ha Hmax Hshort Heq.
  simpl in Hshort. apply Z.leb_le in Hshort.
  rewrite log_stream_some in Heq by lia.
  injection Heq as _ <- Hb. apply Z.ltb_ge in Hb. exact Hb.
Qed.

(** The exchanges released by the loop are the first [d] that it visits.
    When the entries do not all fit below the bound, the loop is left by a
    [break] and the exchange at which it is left is not among them. *)
Lemma log_loop_released (recs : list CRP) :
  forall (i : nat) (a : Z) (m : machine),
    0 <= a <= EEPROM_MAX_ADDRESS + 5 ->
    EEPROM_MAX_ADDRESS + 265 < 65536 ->
    forallb fits recs = true ->
    exists d : nat,
      (d <= length recs)%nat /\
      released (log_loop recs i a m).1 = released m ++ seq i d /\
      (entries recs <> [] ->
       EEPROM_MAX_ADDRESS < a + Z.of_nat (length (concat (entries recs))) ->
       (d < length recs)%nat).
Proof.
  induction recs as [|r rest IH]; intros i a m Ha Hmax Hfit.
  - exists 0%nat. simpl. rewrite app_nil_r.
    split; [lia|split; [reflexivity|]]. intros Hne. contradiction.
  - simpl in Hfit. apply andb_prop in Hfit as [Hr Hrest].
    unfold fits in Hr. apply andb_prop in Hr as [Hsc Hsr].
    cbn [log_loop entries flat_map]. fold (entries rest).
    unfold cmd_entry, rsp_entry.
    destruct (log_stream cmdstr (SerializeCommand (cmd r)) a m)
      as [[m1 a1] b1] eqn:E1.
    destruct (log_stream_spec cmdstr _ _ _ _ _ _ eq_refl Ha Hmax Hsc E1)
      as ((_ & Hr1 & _) & Ha1 & _ & Hnb1).
    destruct b1.
    { exists 0%nat. simpl. rewrite app_nil_r, Hr1.
      split; [lia|split; [reflexivity|]]. intros _ _. lia. }
    destruct (log_stream rspstr (SerializeResponse (response r)) a1 m1)
      as [[m2 a2] b2] eqn:E2.
    destruct (log_stream_spec rspstr _ _ _ _ _ _ eq_refl Hnb1 Hmax Hsr E2)
      as ((_ & Hr2 & _) & Ha2 & _ & Hnb2).
    destruct b2.
    { exists 0%nat. simpl. rewrite app_nil_r, Hr2, Hr1.
      split; [lia|split; [reflexivity|]]. intros _ _. lia. }
    destruct (IH (S i) a2 (FreeCRP i m2) Hnb2 Hmax Hrest) as (d & Hd & Hrel & Hcut).
    exists (S d). split; [simpl; lia|]. split.
    { rewrite Hrel. simpl. rewrite Hr2, Hr1, <- app_assoc. reflexivity. }
    intros Hne Hover.
    rewrite !concat_app, !length_app, !Nat2Z.inj_add in Hover.
    assert (Hover2 : EEPROM_MAX_ADDRESS
                     < a2 + Z.of_nat (length (concat (entries rest)))) by lia.
    assert (Hrest_ne : entries rest <> []).
    { intros Hnil. rewrite Hnil in Hover2, Hne. simpl in Hover2.
      rewrite app_nil_r in Hne.
      destruct (SerializeResponse (response r)) as [s2|] eqn:Es2.
      - pose proof (log_stream_within rspstr s2 a1 m1 m2 a2 eq_refl Hnb1 Hmax
                      Hsr E2). lia.
      - simpl in Ha2.
        destruct (SerializeCommand (cmd r)) as [s1|] eqn:Es1.
        + pose proof (log_stream_within cmdstr s1 a m m1 a1 eq_refl Ha Hmax
                        Hsc E1). lia.
        + apply Hne. reflexivity. }
    specialize (Hcut Hrest_ne Hover2). simpl. lia.
Qed.

(** ** The flush as a whole *)

Lemma tlog_pointer_range (m : machine) : 0 <= tlog_pointer m < 65536.
Proof.
  unfold tlog_pointer.
  destruct (_ =? 65535); apply u16_range.
Qed.

Lemma image_length (app : Z) (es : list (list Z)) :
  Z.of_nat (length (image app es)) = 6 + Z.of_nat (length (concat es)) + 5.
Proof.
  unfold image. rewrite !length_app. simpl. lia.
Qed.

(** Lines 360-399 against [image]. *)
Lemma write_log_spec (m : machine) (a0 : Z) :
  0 <= a0 < EEPROM_MAX_ADDRESS ->
  EEPROM_MAX_ADDRESS + 270 < 65536 ->
  forallb fits (logged m) = true ->
  let es := entries (logged m) in
  let img := image (selected m) (take (emitted es (a0 + 6)) es) in
  let r := write_log m a0 in
  eelog r.1 = eelog m ++ place a0 img /\
  r.2 = a0 + Z.of_nat (length img) /\
  r.2 <= EEPROM_MAX_ADDRESS + 270 /\
  selected r.1 = selected m /\
  nTransactions r.1 = nTransactions m /\
  transactionData r.1 = transactionData m.
Proof.
  intros Ha Hmax Hfit es img r. subst r img.
  unfold write_log.
  destruct (write_block_spec appstr m a0) as (Hl1 & Hr1 & Hs1 & Hn1 & Ht1).
  set (m1 := eeprom_write_block m appstr a0) in *.
  rewrite (u16_small (a0 + 5)) by lia.
  rewrite (u16_small (a0 + 5 + 1)) by lia.
  set (m2 := eeprom_write_byte m1 (a0 + 5) (selected m1)).
  assert (Hlog : take (nTransactions m2) (transactionData m2) = logged m).
  { unfold logged.
    change (nTransactions m2) with (nTransactions m1).
    change (transactionData m2) with (transactionData m1).
    rewrite Hn1, Ht1. reflexivity. }
  rewrite Hlog.
  assert (Ha6 : 0 <= a0 + 5 + 1 <= EEPROM_MAX_ADDRESS + 5) by lia.
  destruct (log_loop_spec (logged m) 0%nat (a0 + 5 + 1) m2 Ha6 ltac:(lia) Hfit)
    as (Hl3 & Ha3 & Hle3 & Hs3 & Hn3 & Ht3).
  destruct (log_loop (logged m) 0%nat (a0 + 5 + 1) m2) as [m3 a3].
  simpl in Hl3, Ha3, Hle3, Hs3, Hn3, Ht3.
  destruct (write_block_spec endstr m3 a3) as (Hl4 & Hr4 & Hs4 & Hn4 & Ht4).
  replace (a0 + 5 + 1) with (a0 + 6) in * by lia.
  fold es in Hl3, Ha3.
  set (out := concat (take (emitted es (a0 + 6)) es)) in *.
  assert (0 <= a3) by lia.
  rewrite (u16_small (a3 + 5)) by lia.
  cbn [fst snd].
  rewrite Hl4, Hs4, Hn4, Ht4, Hl3, Hs3, Hn3, Ht3.
  split; [|split; [|repeat split; lia]].
  - unfold image. fold out. rewrite !place_app. simpl.
    rewrite <- !app_assoc. simpl.
    change (Z.of_nat 5) with 5. change (Z.of_nat 1) with 1.
    replace (a0 + 5 + 1) with (a0 + 6) by lia.
    rewrite <- Ha3. reflexivity.
  - rewrite image_length. fold out. lia.
Qed.

Lemma update_pointer_log (m : machine) (c : Z) :
  eelog (update_pointer m c) = eelog m ++ pointer_cells c.
Proof.
  unfold update_pointer, pointer_cells.
  destruct (next_page c) as [hi lo]. simpl.
  rewrite <- app_assoc. reflexivity.
Qed.

(** When the guard of line 357 holds, the flush is the log followed by the
    pointer update; otherwise it does nothing. *)
Lemma flush_taken (m : machine) :
  (0 < nTransactions m)%nat ->
  tlog_pointer m < EEPROM_MAX_ADDRESS ->
  flush m =
    update_pointer (write_log m (tlog_pointer m)).1
                   (write_log m (tlog_pointer m)).2.
Proof.
  intros Hn Ha. unfold flush.
  apply Nat.ltb_lt in Hn. apply Z.ltb_lt in Ha. rewrite Hn, Ha. simpl.
  destruct (write_log m (tlog_pointer m)) as [m' a']. reflexivity.
Qed.

Lemma flush_skipped (m : machine) :
  nTransactions m = 0%nat \/ EEPROM_MAX_ADDRESS <= tlog_pointer m ->
  flush m = m.
Proof.
  intros [Hn|Ha]; unfold flush.
  - rewrite Hn. reflexivity.
  - apply Z.ltb_ge in Ha. rewrite Ha, andb_false_r. reflexivity.
Qed.

(** ** Truncated flush *)

(** C1, amended. When the handler flushes (buffer not empty, cursor below
    [EEPROM_MAX_ADDRESS]), what it writes to the log is, without gaps from
    the cursor: the application marker, the application id, the first [k]
    framed entries of the buffer in append order, each one a marker with
    its whole payload, and then the end marker, which is always written.
    The bound is tested after an entry has been written, not before: the
    entries before the last emitted one left the cursor at or below
    [EEPROM_MAX_ADDRESS], and entries are held back only when the last
    emitted one has taken the cursor above it. The list of entries may end
    with a command whose response is held back. *)
Theorem flush_truncation (m : machine) :
  (0 < nTransactions m)%nat ->
  tlog_pointer m < EEPROM_MAX_ADDRESS ->
  EEPROM_MAX_ADDRESS + 270 < 65536 ->
  forallb fits (logged m) = true ->
  let a0 := tlog_pointer m in
  let es := entries (logged m) in
  exists k : nat,
    (k <= length es)%nat /\
    eelog (flush m) =
      eelog m ++ place a0 (image (selected m) (take k es))
        ++ pointer_cells
             (a0 + Z.of_nat (length (image (selected m) (take k es)))) /\
    (forall j, (0 < j < k)%nat ->
       a0 + 6 + Z.of_nat (length (concat (take j es)))
         <= EEPROM_MAX_ADDRESS) /\
    ((k < length es)%nat ->
       EEPROM_MAX_ADDRESS
         < a0 + 6 + Z.of_nat (length (concat (take k es)))).
Proof.
  intros Hn Ha Hmax Hfit a0 es.
  pose proof (tlog_pointer_range m) as Hr0.
  exists (emitted es (a0 + 6)).
  destruct (write_log_spec m a0 ltac:(subst a0; lia) Hmax Hfit)
    as (Hl & Hc & _).
  fold es in Hl, Hc.
  split; [apply emitted_le|].
  split; [|split].
  - rewrite flush_taken by assumption. fold a0.
    rewrite update_pointer_log, Hl, Hc, <- app_assoc. reflexivity.
  - intros j Hj. apply (emitted_within es (a0 + 6) j Hj).
  - intros Hk. apply (emitted_crossed es (a0 + 6) Hk).
Qed.

(** ** The persisted cursor *)

(** The pair stored by [update_pointer], read back as one number. *)
Lemma stored_cursor_update (m : machine) (c : Z) :
  EEPROM_TLOG_POINTER_HI <> EEPROM_TLOG_POINTER_LO ->
  0 <= c < 65536 ->
  stored_cursor (update_pointer m c) =
    c / 256 * 256 + (if c mod 256 <? 248 then 8 * (c mod 256 / 8 + 1) else 0).
Proof.
  intros Hne Hc. unfold stored_cursor, update_pointer.
  rewrite next_page_spec by exact Hc.
  rewrite read_write_same.
  rewrite read_write_other by (intros E; apply Hne; symmetry; exact E).
  rewrite read_write_same.
  assert (Hl : 0 <= c mod 256 < 256) by (apply Z.mod_pos_bound; lia).
  assert (Hh : 0 <= c / 256 < 256)
    by (split; [apply Z.div_pos; lia|apply Z.div_lt_upper_bound; lia]).
  assert (Hq : 0 <= c mod 256 / 8 < 32)
    by (split; [apply Z.div_pos; lia|apply Z.div_lt_upper_bound; lia]).
  set (lo := if c mod 256 <? 248 then 8 * (c mod 256 / 8 + 1) else 0).
  assert (Hlo : 0 <= lo < 256).
  { subst lo. destruct (c mod 256 <? 248) eqn:E; [|lia].
    apply Z.ltb_lt in E.
    assert (c mod 256 / 8 < 31) by (apply Z.div_lt_upper_bound; lia). lia. }
  rewrite lor_hi_lo by exact Hlo.
  apply u16_small. lia.
Qed.

(** C2, amended. After a flush the cursor persisted as hi/lo pair is a
    multiple of 8. The cursor reached behind the end marker lies at least
    11 bytes above the cursor found before the flush; the persisted cursor
    is at most 8 above it, and at most [EEPROM_MAX_ADDRESS + 278]: since
    the bound is tested after the writes, it can lie above
    [EEPROM_MAX_ADDRESS]. When the low byte of the cursor behind the end
    marker is below [0xF8], the persisted cursor is the next multiple of 8
    strictly above that cursor, hence above the cursor found before the
    flush. *)
Theorem cursor_after_flush (m : machine) :
  EEPROM_TLOG_POINTER_HI <> EEPROM_TLOG_POINTER_LO ->
  (0 < nTransactions m)%nat ->
  tlog_pointer m < EEPROM_MAX_ADDRESS ->
  EEPROM_MAX_ADDRESS + 270 < 65536 ->
  forallb fits (logged m) = true ->
  let before := tlog_pointer m in
  let behind := (write_log m before).2 in
  let after := stored_cursor (flush m) in
  after mod 8 = 0 /\
  before + 11 <= behind /\
  after <= behind + 8 /\
  after <= EEPROM_MAX_ADDRESS + 278 /\
  (behind mod 256 < 248 -> after = 8 * (behind / 8 + 1) /\ before < after).
Proof.
  intros Hne Hn Ha Hmax Hfit before behind after.
  pose proof (tlog_pointer_range m) as Hr0. fold before in Hr0, Ha.
  destruct (write_log_spec m before ltac:(lia) Hmax Hfit)
    as (_ & Hc & Hle & _).
  fold behind in Hc, Hle. rewrite image_length in Hc.
  assert (Hb : 0 <= behind < 65536) by lia.
  assert (Hafter : after =
    behind / 256 * 256 +
    (if behind mod 256 <? 248 then 8 * (behind mod 256 / 8 + 1) else 0)).
  { subst after. rewrite flush_taken by assumption.
    apply stored_cursor_update; assumption. }
  clearbody after behind before. subst after.
  destruct (behind mod 256 <? 248) eqn:E;
    [apply Z.ltb_lt in E|apply Z.ltb_ge in E].
  - assert (Hnext : behind / 256 * 256 + 8 * (behind mod 256 / 8 + 1)
                    = 8 * (behind / 8 + 1)).
    { Z.div_mod_to_equations. lia. }
    rewrite Hnext.
    assert (behind < 8 * (behind / 8 + 1) <= behind + 8)
      by (Z.div_mod_to_equations; lia).
    repeat split; try lia.
    rewrite Z.mul_comm. apply Z.mod_mul. lia.
  - repeat split; try lia.
    + rewrite Z.add_0_r.
      replace (behind / 256 * 256) with (behind / 256 * 32 * 8) by lia.
      apply Z.mod_mul. lia.
    + Z.div_mod_to_equations. lia.
    + Z.div_mod_to_equations. lia.
Qed.

(** ** Complete flush *)

(** When every exchange serializes, its entries are the framed command
    followed by the framed response. *)
Lemma entries_payloads (recs : list CRP) (payloads : list (list Z * list Z)) :
  Forall2 (fun r p => SerializeCommand (cmd r) = Some p.1 /\
                      SerializeResponse (response r) = Some p.2)
          recs payloads ->
  concat (entries recs) =
    flat_map (fun p => cmdstr ++ p.1 ++ rspstr ++ p.2) payloads.
Proof.
  induction 1 as [|r p recs payloads [Hc Hr] _ IH]; [reflexivity|].
  cbn [entries flat_map]. fold (entries recs).
  unfold cmd_entry, rsp_entry. rewrite Hc, Hr.
  simpl. rewrite IH, <- app_assoc. reflexivity.
Qed.

Lemma update_pointer_ram (m : machine) (c : Z) :
  released (update_pointer m c) = released m /\
  nTransactions (update_pointer m c) = nTransactions m.
Proof. unfold update_pointer. destruct (next_page c). split; reflexivity. Qed.

(** With room for all entries, the log part of the flush releases every
    exchange it visits. *)
Lemma write_log_complete (m : machine) (a0 : Z) :
  0 <= a0 < EEPROM_MAX_ADDRESS ->
  EEPROM_MAX_ADDRESS + 270 < 65536 ->
  forallb fits (logged m) = true ->
  a0 + 6 + Z.of_nat (length (concat (entries (logged m)))) <= EEPROM_MAX_ADDRESS ->
  released (write_log m a0).1 = released m ++ seq 0 (length (logged m)).
Proof.
  intros Ha Hmax Hfit Hroom. unfold write_log.
  destruct (write_block_spec appstr m a0) as (Hl1 & Hr1 & Hs1 & Hn1 & Ht1).
  set (m1 := eeprom_write_block m appstr a0) in *.
  rewrite (u16_small (a0 + 5)) by lia.
  rewrite (u16_small (a0 + 5 + 1)) by lia.
  set (m2 := eeprom_write_byte m1 (a0 + 5) (selected m1)).
  assert (Hlog : take (nTransactions m2) (transactionData m2) = logged m).
  { unfold logged.
    change (nTransactions m2) with (nTransactions m1).
    change (transactionData m2) with (transactionData m1).
    rewrite Hn1, Ht1. reflexivity. }
  rewrite Hlog.
  assert (Ha6 : 0 <= a0 + 5 + 1 <= EEPROM_MAX_ADDRESS + 5) by lia.
  pose proof (log_loop_complete (logged m) 0%nat (a0 + 5 + 1) m2 Ha6
                ltac:(lia) Hfit ltac:(lia)) as Hrel.
  destruct (log_loop (logged m) 0%nat (a0 + 5 + 1) m2) as [m3 a3].
  destruct (write_block_spec endstr m3 a3) as (_ & Hr4 & _).
  cbn [fst snd] in *. rewrite Hr4, Hrel.
  change (released m2) with (released m1). rewrite Hr1. reflexivity.
Qed.

(** The exchanges released by a flush are the first [d] of the buffer; a
    flush that is cut short leaves at least the exchange at which it stops
    unreleased. *)
Lemma flush_released (m : machine) :
  (0 < nTransactions m)%nat ->
  tlog_pointer m < EEPROM_MAX_ADDRESS ->
  EEPROM_MAX_ADDRESS + 270 < 65536 ->
  forallb fits (logged m) = true ->
  exists d : nat,
    (d <= length (logged m))%nat /\
    released (flush m) = released m ++ seq 0 d /\
    (entries (logged m) <> [] ->
     EEPROM_MAX_ADDRESS
       < tlog_pointer m + 6 + Z.of_nat (length (concat (entries (logged m)))) ->
     (d < length (logged m))%nat).
Proof.
  intros Hn Ha Hmax Hfit.
  pose proof (tlog_pointer_range m) as Hr0.
  rewrite flush_taken by assumption.
  set (a0 := tlog_pointer m) in *.
  destruct (update_pointer_ram (write_log m a0).1 (write_log m a0).2)
    as [-> _].
  unfold write_log.
  destruct (write_block_spec appstr m a0) as (Hl1 & Hr1 & Hs1 & Hn1 & Ht1).
  set (m1 := eeprom_write_block m appstr a0) in *.
  rewrite (u16_small (a0 + 5)) by lia.
  rewrite (u16_small (a0 + 5 + 1)) by lia.
  set (m2 := eeprom_write_byte m1 (a0 + 5) (selected m1)).
  assert (Hlog : take (nTransactions m2) (transactionData m2) = logged m).
  { unfold logged.
    change (nTransactions m2) with (nTransactions m1).
    change (transactionData m2) with (transactionData m1).
    rewrite Hn1, Ht1. reflexivity. }
  rewrite Hlog.
  assert (Ha6 : 0 <= a0 + 5 + 1 <= EEPROM_MAX_ADDRESS + 5) by lia.
  destruct (log_loop_released (logged m) 0%nat (a0 + 5 + 1) m2 Ha6
              ltac:(lia) Hfit) as (d & Hd & Hrel & Hcut).
  exists d. split; [exact Hd|].
  destruct (log_loop (logged m) 0%nat (a0 + 5 + 1) m2) as [m3 a3].
  destruct (write_block_spec endstr m3 a3) as (_ & Hr4 & _).
  cbn [fst snd] in *. split.
  - rewrite Hr4, Hrel. change (released m2) with (released m1).
    rewrite Hr1. reflexivity.
  - intros Hne Hover. apply Hcut; [exact Hne|lia].
Qed.

(** C5, amended. When a non-empty buffer is flushed with room for all of it
    and every exchange serializes, the log receives, from the cursor on:
    the application marker, the application id, then for each exchange in
    append order the command marker with the command bytes and the response
    marker with the response bytes, then the end marker. The cursor moves
    by 5 + 1 + the framed exchanges + 5 before it is rounded, and every
    exchange is released, in order. The handler itself leaves
    [nTransactions] as it was; the length goes back to 0 in [InitSCD], on
    the boot that follows. *)
Theorem flush_complete (m : machine) (payloads : list (list Z * list Z))
    (lcd : Z) :
  (0 < nTransactions m <= length (transactionData m))%nat ->
  tlog_pointer m < EEPROM_MAX_ADDRESS ->
  EEPROM_MAX_ADDRESS + 270 < 65536 ->
  forallb fits (logged m) = true ->
  Forall2 (fun r p => SerializeCommand (cmd r) = Some p.1 /\
                      SerializeResponse (response r) = Some p.2)
          (logged m) payloads ->
  let a0 := tlog_pointer m in
  let body := flat_map (fun p => cmdstr ++ p.1 ++ rspstr ++ p.2) payloads in
  let behind := a0 + 5 + 1 + Z.of_nat (length body) + 5 in
  a0 + 5 + 1 + Z.of_nat (length body) <= EEPROM_MAX_ADDRESS ->
  eelog (flush m) =
    eelog m ++ place a0 (appstr ++ [selected m] ++ body ++ endstr)
      ++ pointer_cells behind /\
  (write_log m a0).2 = behind /\
  released (flush m) = released m ++ seq 0 (nTransactions m) /\
  nTransactions (flush m) = nTransactions m /\
  nTransactions (InitSCD (flush m) lcd) = 0%nat.
Proof.
  intros [Hn Hcap] Ha Hmax Hfit Hpay a0 body behind Hroom.
  pose proof (tlog_pointer_range m) as Hr0. fold a0 in Hr0, Ha.
  pose proof (entries_payloads _ _ Hpay) as Hbody. fold body in Hbody.
  destruct (write_log_spec m a0 ltac:(lia) Hmax Hfit)
    as (Hl & Hc & _ & _ & Hnt & _).
  rewrite emitted_all in Hl, Hc by (rewrite Hbody; lia).
  rewrite take_ge in Hl, Hc by lia.
  rewrite image_length, Hbody in Hc.
  unfold image in Hl. rewrite Hbody in Hl.
  assert (Hbehind : (write_log m a0).2 = behind) by (subst behind; lia).
  rewrite flush_taken by assumption. fold a0.
  destruct (update_pointer_ram (write_log m a0).1 (write_log m a0).2)
    as [Hrel Hnt'].
  split; [|split; [|split; [|split]]].
  - rewrite update_pointer_log, Hl, Hbehind, <- app_assoc. reflexivity.
  - exact Hbehind.
  - rewrite Hrel, write_log_complete by (rewrite ?Hbody; lia || assumption).
    unfold logged. rewrite length_take_le by exact Hcap. reflexivity.
  - rewrite Hnt'. exact Hnt.
  - unfold InitSCD. destruct (lcd =? 0); reflexivity.
Qed.

(** ** Flush that does not take place *)

(** C7. With an empty buffer, or with the cursor at or past
    [EEPROM_MAX_ADDRESS] when the flush starts, the flush changes nothing:
    no marker and no payload byte is written, the pointer cells are not
    touched and no exchange is released or written. The handler as a whole
    then writes two cells only, the transaction counter and the warm-reset
    flag. [m0] is the state in which the flush starts, after the counter
    has been stored. *)
Theorem flush_noop (m : machine) (freq : Z) :
  let m0 := eeprom_write_byte (wdt_disable m) EEPROM_COUNTER (nCounter m) in
  nTransactions m = 0%nat \/ EEPROM_MAX_ADDRESS <= tlog_pointer m0 ->
  flush m0 = m0 /\
  released (INT0_vect m freq) = released m /\
  exists v,
    eelog (INT0_vect m freq) =
      eelog m ++ [(EEPROM_COUNTER, nCounter m); (EEPROM_WARM_RESET, v)].
Proof.
  intros m0 Hskip.
  assert (Hflush : flush m0 = m0).
  { apply flush_skipped. destruct Hskip as [Hn|Ha]; [left; exact Hn|right; exact Ha]. }
  split; [exact Hflush|].
  change (INT0_vect m freq)
    with (wdt_enable (set_int0 (classify (flush m0) freq) false)).
  rewrite Hflush. unfold classify.
  destruct (freq =? 0); [|destruct (_ =? WARM_RESET_VALUE)];
    (split; [reflexivity|]); eexists; simpl; rewrite <- app_assoc; reflexivity.
Qed.

(** ** The pointer that was never written *)

Lemma log_loop_extends (recs : list CRP) :
  forall i a m, exists l, eelog (log_loop recs i a m).1 = eelog m ++ l.
Proof.
  assert (Hstream : forall marker o a m,
    exists l, eelog (log_stream marker o a m).1.1 = eelog m ++ l).
  { intros marker [s|] a m; simpl.
    - destruct (write_block_spec marker m a) as (Hl & _).
      destruct (write_block_spec s (eeprom_write_block m marker a) (u16 (a + 5)))
        as (Hl' & _).
      rewrite Hl', Hl, <- app_assoc. eexists. reflexivity.
    - exists []. rewrite app_nil_r. reflexivity. }
  induction recs as [|r rest IH]; intros i a m.
  - exists []. simpl. rewrite app_nil_r. reflexivity.
  - cbn [log_loop].
    destruct (Hstream cmdstr (SerializeCommand (cmd r)) a m) as [l1 Hl1].
    destruct (log_stream cmdstr (SerializeCommand (cmd r)) a m)
      as [[m1 a1] b1].
    simpl in Hl1. destruct b1; [exists l1; exact Hl1|].
    destruct (Hstream rspstr (SerializeResponse (response r)) a1 m1) as [l2 Hl2].
    destruct (log_stream rspstr (SerializeResponse (response r)) a1 m1)
      as [[m2 a2] b2].
    simpl in Hl2.
    destruct b2;
      [exists (l1 ++ l2); cbn [fst]; rewrite Hl2, Hl1, app_assoc; reflexivity|].
    destruct (IH (S i) a2 (FreeCRP i m2)) as [l3 Hl3].
    exists (l1 ++ l2 ++ l3). rewrite Hl3.
    change (eelog (FreeCRP i m2)) with (eelog m2).
    rewrite Hl2, Hl1, <- !app_assoc. reflexivity.
Qed.

(** C8. When the pair read back from the store is the erased pattern, both
    bytes [0xFF], the cursor of the flush is [EEPROM_TLOG_DATA]; any other
    pair is used as the number it spells, high byte first. The cursor is
    settled before anything is written: the first byte that a flush sends
    to the EEPROM is the first byte of the application marker, at that
    cursor. *)
Theorem uninitialized_cursor (m : machine) :
  let hi := eeprom_read_byte m EEPROM_TLOG_POINTER_HI in
  let lo := eeprom_read_byte m EEPROM_TLOG_POINTER_LO in
  0 <= hi < 256 -> 0 <= lo < 256 ->
  0 <= EEPROM_TLOG_DATA < 65536 ->
  tlog_pointer m =
    (if (hi =? 0xFF) && (lo =? 0xFF) then EEPROM_TLOG_DATA
     else hi * 256 + lo) /\
  ((0 < nTransactions m)%nat -> tlog_pointer m < EEPROM_MAX_ADDRESS ->
   exists rest,
     eelog (flush m) = eelog m ++ (tlog_pointer m, 0xDD) :: rest).
Proof.
  intros hi lo Hhi Hlo Hdata. split.
  - unfold tlog_pointer. fold hi lo.
    rewrite lor_hi_lo by exact Hlo.
    rewrite (u16_small (hi * 256 + lo)) by lia.
    rewrite (u16_small EEPROM_TLOG_DATA) by exact Hdata.
    destruct (hi =? 255) eqn:E1; destruct (lo =? 255) eqn:E2; simpl;
      destruct (hi * 256 + lo =? 65535) eqn:E3; try reflexivity; lia.
  - intros Hn Ha. rewrite flush_taken by assumption.
    rewrite update_pointer_log. unfold write_log.
    set (a0 := tlog_pointer m).
    set (m2 := eeprom_write_byte _ _ _).
    destruct (log_loop_extends (take (nTransactions m2) (transactionData m2))
                0%nat (u16 (u16 (a0 + 5) + 1)) m2) as [l Hl].
    destruct (log_loop _ _ _ m2) as [m3 a3]. cbn [fst snd] in *.
    destruct (write_block_spec endstr m3 a3) as (Hl4 & _).
    rewrite Hl4, Hl. subst m2. simpl.
    rewrite <- !app_assoc. simpl. eexists. reflexivity.
Qed.

(** ** The warm-reset flag *)

Lemma classify_flag (m : machine) (freq : Z) :
  eeprom_read_byte (classify m freq) EEPROM_WARM_RESET =
    if freq =? 0 then 0
    else if eeprom_read_byte m EEPROM_WARM_RESET =? WARM_RESET_VALUE then 0
         else u8 WARM_RESET_VALUE.
Proof.
  unfold classify. destruct (freq =? 0); [apply read_write_same|].
  cbn [warmResetByte set_warmResetByte].
  destruct (_ =? WARM_RESET_VALUE); apply read_write_same.
Qed.

Lemma classify_reported (m : machine) (freq : Z) :
  freq <> 0 ->
  reported (classify m freq) =
    if eeprom_read_byte m EEPROM_WARM_RESET =? WARM_RESET_VALUE
    then Warm else Cold.
Proof.
  intros Hf. apply Z.eqb_neq in Hf. unfold classify, reported. rewrite Hf.
  cbn [warmResetByte set_warmResetByte].
  destruct (eeprom_read_byte m EEPROM_WARM_RESET =? WARM_RESET_VALUE) eqn:E;
    simpl; rewrite E; reflexivity.
Qed.

Lemma resets_snoc (m : machine) (fs : list Z) (f : Z) :
  resets m (fs ++ [f]) = classify (resets m fs) f.
Proof. unfold resets. rewrite foldl_snoc. reflexivity. Qed.

(** The flag after a run of resets that all see the terminal clock. *)
Lemma resets_flag (fs : list Z) (m : machine) :
  0 < WARM_RESET_VALUE < 256 ->
  eeprom_read_byte m EEPROM_WARM_RESET = 0 ->
  Forall (fun f => f <> 0) fs ->
  eeprom_read_byte (resets m fs) EEPROM_WARM_RESET =
    if Nat.even (length fs) then 0 else WARM_RESET_VALUE.
Proof.
  intros Hw H0 Hfs.
  induction fs as [|f fs IH] using rev_ind; [exact H0|].
  apply Forall_app in Hfs as [Hfs Hf]. apply Forall_inv in Hf.
  specialize (IH Hfs).
  rewrite resets_snoc, classify_flag, IH.
  apply Z.eqb_neq in Hf. rewrite Hf.
  rewrite length_app, Nat.add_comm. cbn [length Nat.add].
  rewrite Nat.even_succ, <- Nat.negb_even.
  destruct (Nat.even (length fs)); cbn [negb].
  - assert ((0 =? WARM_RESET_VALUE) = false) as -> by (apply Z.eqb_neq; lia).
    apply u8_small. lia.
  - rewrite Z.eqb_refl. reflexivity.
Qed.

(** C3, amended. On terminal resets at which the terminal clock is present
    the flag is a two-step toggle: starting from the flag unset, the first
    reset finds Cold and leaves the flag at the warm-reset value, the
    second finds Warm and leaves the flag unset, and so on for every
    further reset of that kind: the reset number [n] finds Cold when [n] is
    odd and Warm when [n] is even. *)
Theorem warm_cold_toggle (m : machine) (f1 f2 : Z) :
  0 < WARM_RESET_VALUE < 256 ->
  eeprom_read_byte m EEPROM_WARM_RESET = 0 ->
  f1 <> 0 -> f2 <> 0 ->
  let m1 := classify m f1 in
  let m2 := classify m1 f2 in
  reported m1 = Cold /\
  eeprom_read_byte m1 EEPROM_WARM_RESET = WARM_RESET_VALUE /\
  reported m2 = Warm /\
  eeprom_read_byte m2 EEPROM_WARM_RESET = 0 /\
  forall (fs : list Z) (f : Z),
    Forall (fun f => f <> 0) fs -> f <> 0 ->
    let m' := classify (resets m fs) f in
    reported m' = (if Nat.even (length fs) then Cold else Warm) /\
    eeprom_read_byte m' EEPROM_WARM_RESET =
      (if Nat.even (length fs) then WARM_RESET_VALUE else 0).
Proof.
  intros Hw H0 Hf1 Hf2 m1 m2.
  assert (Hgen : forall (fs : list Z) (f : Z),
    Forall (fun f => f <> 0) fs -> f <> 0 ->
    reported (classify (resets m fs) f)
      = (if Nat.even (length fs) then Cold else Warm) /\
    eeprom_read_byte (classify (resets m fs) f) EEPROM_WARM_RESET
      = (if Nat.even (length fs) then WARM_RESET_VALUE else 0)).
  { intros fs f Hfs Hf.
    rewrite classify_reported by exact Hf.
    rewrite classify_flag, (resets_flag fs m Hw H0 Hfs).
    apply Z.eqb_neq in Hf. rewrite Hf.
    destruct (Nat.even (length fs)).
    - assert ((0 =? WARM_RESET_VALUE) = false) as -> by (apply Z.eqb_neq; lia).
      split; [reflexivity|apply u8_small; lia].
    - rewrite Z.eqb_refl. split; reflexivity. }
  destruct (Hgen [] f1 ltac:(constructor) Hf1) as [Hr1 Hv1].
  destruct (Hgen [f1] f2 ltac:(repeat constructor; exact Hf1) Hf2) as [Hr2 Hv2].
  repeat split; try assumption; apply Hgen; assumption.
Qed.

(** C9. Without a terminal clock ([GetTerminalFreq()] returns 0) the
    handler ends by storing 0 in the warm-reset flag, whatever the flag
    held and whatever the flush did before; the byte that tells Cold from
    Warm is not read again. The flag moves between its two values only on a
    reset that sees the clock. *)
Theorem no_clock_clears_flag (m : machine) (freq : Z) :
  eeprom_read_byte (INT0_vect m 0) EEPROM_WARM_RESET = 0 /\
  warmResetByte (INT0_vect m 0) = warmResetByte (flush
    (eeprom_write_byte (wdt_disable m) EEPROM_COUNTER (nCounter m))) /\
  (exists l, eelog (INT0_vect m 0) = l ++ [(EEPROM_WARM_RESET, 0)]) /\
  eeprom_read_byte (classify m freq) EEPROM_WARM_RESET =
    (if freq =? 0 then 0
     else if eeprom_read_byte m EEPROM_WARM_RESET =? WARM_RESET_VALUE then 0
          else u8 WARM_RESET_VALUE).
Proof.
  set (m0 := flush (eeprom_write_byte (wdt_disable m) EEPROM_COUNTER (nCounter m))).
  change (INT0_vect m 0)
    with (wdt_enable (set_int0 (classify m0 0) false)).
  split; [|split; [|split]].
  - change (eeprom_read_byte (classify m0 0) EEPROM_WARM_RESET = 0).
    rewrite classify_flag. reflexivity.
  - reflexivity.
  - exists (eelog m0). reflexivity.
  - apply classify_flag.
Qed.

(** ** Application dispatch *)

Variable app_body : proc -> machine -> option machine.

(** The state in which the [default:] branch calls [Terminal]. *)
Lemma switch_default_spec (m : machine) :
  0 <= APP_TERMINAL < 256 ->
  exists m1,
    switch_default app_body m = call app_body Terminal m1 Switching /\
    selected m1 = APP_TERMINAL /\
    eeprom_read_byte m1 EEPROM_APPLICATION = APP_TERMINAL /\
    eeprom m1 = <[EEPROM_APPLICATION := APP_TERMINAL]> (eeprom m) /\
    eelog m1 = eelog m ++ [(EEPROM_APPLICATION, APP_TERMINAL)] /\
    calls m1 = calls m.
Proof.
  intros Hid. eexists. split; [reflexivity|].
  cbn [selected set_selected eeprom_write_byte set_eeprom eeprom eelog calls].
  rewrite (u8_small APP_TERMINAL) by exact Hid.
  repeat split; try reflexivity.
  apply read_write_same.
Qed.

(** An identifier without a [case] of its own reaches [default:]. *)
Lemma dispatch_unknown (m : machine) :
  known_app (selected m) = false ->
  dispatch app_body m = switch_default app_body m.
Proof.
  intros Hk. unfold known_app in Hk. apply bool_decide_eq_false in Hk.
  unfold case_labels in Hk. rewrite !not_elem_of_cons in Hk.
  destruct Hk as (H1 & H2 & H3 & H4 & H5 & H6 & H7 & _).
  unfold dispatch.
  repeat match goal with
  | Hne : selected m <> ?x |- context [selected m =? ?x] =>
      rewrite (proj2 (Z.eqb_neq (selected m) x) Hne)
  end.
  reflexivity.
Qed.

(** Distinct labels: the identifier of [Terminal] selects its own case. *)
Lemma dispatch_terminal (m : machine) :
  NoDup case_labels ->
  selected m = APP_TERMINAL ->
  dispatch app_body m = call app_body Terminal m Switching.
Proof.
  intros Hnd Hs. unfold case_labels in Hnd.
  repeat match goal with
  | Hnd : NoDup (_ :: _) |- _ =>
      apply NoDup_cons in Hnd as [? Hnd]
  end.
  repeat match goal with
  | Hin : _ ∉ _ :: _ |- _ => rewrite not_elem_of_cons in Hin; destruct Hin
  end.
  unfold dispatch. rewrite Hs.
  repeat match goal with
  | Hne : ?x <> APP_TERMINAL |- context [APP_TERMINAL =? ?x] =>
      rewrite (proj2 (Z.eqb_neq APP_TERMINAL x) (not_eq_sym Hne))
  end.
  rewrite Z.eqb_refl. reflexivity.
Qed.

(** C6. An identifier outside the set of [case] labels is not an error:
    [main] stores the identifier of [Terminal] in [selected] and in the
    EEPROM cell of the application, and runs [Terminal], with no other
    application run before. A later boot without configuration request that
    finds this store runs [Terminal] through its own case, without writing
    to the store. *)
Theorem unknown_app_fallback (m : machine) :
  0 <= APP_TERMINAL < 256 ->
  NoDup case_labels ->
  known_app (selected m) = false ->
  exists m1,
    dispatch app_body m = call app_body Terminal m1 Switching /\
    selected m1 = APP_TERMINAL /\
    eeprom_read_byte m1 EEPROM_APPLICATION = APP_TERMINAL /\
    eelog m1 = eelog m ++ [(EEPROM_APPLICATION, APP_TERMINAL)] /\
    calls m1 = calls m /\
    forall (m' : machine) (inp : boot_inputs),
      GetButtonB inp <> 0 ->
      eeprom_read_byte m' EEPROM_APPLICATION
        = eeprom_read_byte m1 EEPROM_APPLICATION ->
      exists m1',
        main app_body m' inp = call app_body Terminal m1' Switching /\
        selected m1' = APP_TERMINAL /\
        eeprom m1' = eeprom m' /\
        eelog m1' = eelog m' /\
        calls m1' = calls m'.
Proof.
  intros Hid Hnd Hk.
  destruct (switch_default_spec m Hid) as (m1 & Hd & Hs & Hr & He & Hl & Hc).
  exists m1. rewrite dispatch_unknown by exact Hk.
  repeat split; try assumption.
  intros m' inp Hb He'.
  apply Z.eqb_neq in Hb.
  unfold main, boot. rewrite Hb.
  eexists. split.
  - apply dispatch_terminal; [exact Hnd|].
    cbn [selected set_selected]. rewrite <- Hr, <- He'.
    unfold InitSCD. destruct (CheckLCD inp =? 0); reflexivity.
  - rewrite Hr in He'. unfold InitSCD.
    destruct (CheckLCD inp =? 0); repeat split;
      cbn [selected set_selected]; rewrite <- He'; reflexivity.
Qed.

(** C10. The case of [APP_VIRTUAL_SERIAL_PORT] has no [break]: when
    [VirtualSerial] returns, control runs on into [default:], which stores
    the identifier of [Terminal] in [selected] and in the EEPROM cell of the
    application and then runs [Terminal]. *)
Theorem virtual_serial_falls_through (m m' : machine) :
  0 <= APP_TERMINAL < 256 ->
  NoDup case_labels ->
  selected m = APP_VIRTUAL_SERIAL_PORT ->
  app_body VirtualSerial (set_calls m (calls m ++ [VirtualSerial])) = Some m' ->
  exists m1,
    dispatch app_body m = call app_body Terminal m1 Switching /\
    selected m1 = APP_TERMINAL /\
    eeprom_read_byte m1 EEPROM_APPLICATION = APP_TERMINAL /\
    eelog m1 = eelog m' ++ [(EEPROM_APPLICATION, APP_TERMINAL)] /\
    eeprom m1 = <[EEPROM_APPLICATION := APP_TERMINAL]> (eeprom m').
Proof.
  intros Hid Hnd Hs Hret.
  destruct (switch_default_spec m' Hid) as (m1 & Hd & Hs1 & Hr & He & Hl & Hc).
  exists m1. repeat split; try assumption.
  rewrite <- Hd.
  unfold case_labels in Hnd.
  repeat match goal with
  | Hnd : NoDup (_ :: _) |- _ =>
      apply NoDup_cons in Hnd as [? Hnd]
  end.
  repeat match goal with
  | Hin : _ ∉ _ :: _ |- _ => rewrite not_elem_of_cons in Hin; destruct Hin
  end.
  unfold dispatch. rewrite Hs.
  repeat match goal with
  | Hne : ?x <> APP_VIRTUAL_SERIAL_PORT
    |- context [APP_VIRTUAL_SERIAL_PORT =? ?x] =>
      rewrite (proj2 (Z.eqb_neq APP_VIRTUAL_SERIAL_PORT x) (not_eq_sym Hne))
  end.
  rewrite Z.eqb_refl. unfold call at 1. rewrite Hret. reflexivity.
Qed.

End Properties.

(** * Further properties *)

Section Store.

Context {H : Headers}.

(** ** The store follows the trace *)

Lemma apply_writes_app (l1 l2 : list (Z * Z)) (e : gmap Z Z) :
  apply_writes (l1 ++ l2) e = apply_writes l2 (apply_writes l1 e).
Proof. unfold apply_writes. apply foldl_app. Qed.

(** A cell that no write of [l] addresses keeps its content. *)
Lemma apply_writes_other (l : list (Z * Z)) :
  forall (e : gmap Z Z) (a : Z),
    Forall (fun w => w.1 <> a) l -> apply_writes l e !! a = e !! a.
Proof.
  induction l as [|w l IH]; intros e a Hl; [reflexivity|].
  apply Forall_cons in Hl as [Hw Hl].
  change (apply_writes (w :: l) e) with (apply_writes l (<[w.1 := w.2]> e)).
  rewrite IH by exact Hl. apply lookup_insert_ne. exact Hw.
Qed.

Lemma place_addresses (bs : list Z) :
  forall a, Forall (fun w => a <= w.1 < a + Z.of_nat (length bs)) (place a bs).
Proof.
  induction bs as [|b bs IH]; intros a; simpl; constructor.
  - simpl. lia.
  - eapply Forall_impl; [apply IH|]. simpl. intros w Hw. lia.
Qed.

(** A block that was laid out is found again, byte by byte. *)
Lemma apply_place_lookup (bs : list Z) :
  forall (a : Z) (e : gmap Z Z) (k : nat) (b : Z),
    bs !! k = Some b ->
    apply_writes (place a bs) e !! (a + Z.of_nat k) = Some b.
Proof.
  induction bs as [|b0 bs IH]; intros a e k b Hk; [discriminate|].
  change (apply_writes (place a (b0 :: bs)) e)
    with (apply_writes (place (a + 1) bs) (<[a := b0]> e)).
  destruct k as [|k]; simpl in Hk.
  - injection Hk as ->. rewrite Z.add_0_r.
    rewrite apply_writes_other; [apply lookup_insert_eq|].
    eapply Forall_impl; [apply place_addresses|]. simpl. intros w Hw. lia.
  - replace (a + Z.of_nat (S k)) with (a + 1 + Z.of_nat k) by lia.
    apply IH. exact Hk.
Qed.

(** Every step of the handler keeps store and trace in line. *)
Lemma write_block_store (s : list Z) :
  forall (m : machine) (a : Z),
    eeprom (eeprom_write_block m s a) = apply_writes (place a s) (eeprom m).
Proof.
  induction s as [|b s IH]; intros m a; [reflexivity|].
  simpl eeprom_write_block. rewrite IH. reflexivity.
Qed.

Lemma log_stream_store (marker : list Z) (o : option (list Z)) (a : Z)
    (m : machine) :
  exists l,
    eelog (log_stream marker o a m).1.1 = eelog m ++ l /\
    eeprom (log_stream marker o a m).1.1 = apply_writes l (eeprom m).
Proof.
  destruct o as [s|]; simpl.
  - destruct (write_block_spec marker m a) as (Hl & _).
    destruct (write_block_spec s (eeprom_write_block m marker a) (u16 (a + 5)))
      as (Hl' & _).
    exists (place a marker ++ place (u16 (a + 5)) s).
    rewrite Hl', Hl, <- app_assoc, !write_block_store, apply_writes_app.
    split; reflexivity.
  - exists []. rewrite app_nil_r. split; reflexivity.
Qed.

Lemma log_loop_store (recs : list CRP) :
  forall i a m, exists l,
    eelog (log_loop recs i a m).1 = eelog m ++ l /\
    eeprom (log_loop recs i a m).1 = apply_writes l (eeprom m).
Proof.
  induction recs as [|r rest IH]; intros i a m.
  - exists []. simpl. rewrite app_nil_r. split; reflexivity.
  - cbn [log_loop].
    destruct (log_stream_store cmdstr (SerializeCommand (cmd r)) a m)
      as (l1 & Hl1 & He1).
    destruct (log_stream cmdstr (SerializeCommand (cmd r)) a m)
      as [[m1 a1] b1].
    cbn [fst] in Hl1, He1. destruct b1; [exists l1; split; assumption|].
    destruct (log_stream_store rspstr (SerializeResponse (response r)) a1 m1)
      as (l2 & Hl2 & He2).
    destruct (log_stream rspstr (SerializeResponse (response r)) a1 m1)
      as [[m2 a2] b2].
    cbn [fst] in Hl2, He2.
    destruct b2.
    { exists (l1 ++ l2). cbn [fst].
      rewrite Hl2, Hl1, He2, He1, app_assoc, apply_writes_app.
      split; reflexivity. }
    destruct (IH (S i) a2 (FreeCRP i m2)) as (l3 & Hl3 & He3).
    exists (l1 ++ l2 ++ l3). rewrite Hl3, He3.
    change (eelog (FreeCRP i m2)) with (eelog m2).
    change (eeprom (FreeCRP i m2)) with (eeprom m2).
    rewrite Hl2, Hl1, He2, He1, <- !app_assoc, !apply_writes_app.
    split; reflexivity.
Qed.

Lemma flush_store (m : machine) :
  exists l,
    eelog (flush m) = eelog m ++ l /\
    eeprom (flush m) = apply_writes l (eeprom m).
Proof.
  unfold flush.
  destruct ((0 <? nTransactions m)%nat && (tlog_pointer m <? EEPROM_MAX_ADDRESS));
    [|exists []; rewrite app_nil_r; split; reflexivity].
  unfold write_log.
  set (a0 := tlog_pointer m).
  set (m2 := eeprom_write_byte _ _ _).
  assert (H2 : eelog m2 = eelog m ++ place a0 appstr ++ [(u16 (a0 + 5), selected m)]
               /\ eeprom m2 = apply_writes
                    (place a0 appstr ++ [(u16 (a0 + 5), selected m)]) (eeprom m)).
  { subst m2. destruct (write_block_spec appstr m a0) as (Hl & _ & Hs & _).
    split.
    - cbn [eelog eeprom_write_byte set_eeprom].
      rewrite Hl, Hs, <- app_assoc. reflexivity.
    - cbn [eeprom eeprom_write_byte set_eeprom].
      rewrite write_block_store, Hs, apply_writes_app. reflexivity. }
  destruct H2 as [Hl2 He2].
  destruct (log_loop_store (take (nTransactions m2) (transactionData m2))
              0%nat (u16 (u16 (a0 + 5) + 1)) m2) as (l3 & Hl3 & He3).
  destruct (log_loop _ _ _ m2) as [m3 a3]. cbn [fst] in Hl3, He3.
  destruct (write_block_spec endstr m3 a3) as (Hl4 & _).
  pose proof (write_block_store endstr m3 a3) as He4.
  unfold update_pointer. destruct (next_page (u16 (a3 + 5))) as [hi lo].
  eexists. split.
  - cbn [eelog eeprom_write_byte set_eeprom].
    rewrite Hl4, Hl3, Hl2, <- !app_assoc. reflexivity.
  - cbn [eeprom eeprom_write_byte set_eeprom].
    rewrite He4, He3, He2, !apply_writes_app. reflexivity.
Qed.

(** The store after a flush that takes place: the image laid out from the
    cursor, then the two pointer cells. *)
Lemma flush_store_taken (m : machine) :
  (0 < nTransactions m)%nat ->
  tlog_pointer m < EEPROM_MAX_ADDRESS ->
  EEPROM_MAX_ADDRESS + 270 < 65536 ->
  forallb fits (logged m) = true ->
  let a0 := tlog_pointer m in
  let es := entries (logged m) in
  let img := image (selected m) (take (emitted es (a0 + 6)) es) in
  let behind := (write_log m a0).2 in
  behind = a0 + Z.of_nat (length img) /\
  eelog (flush m) = eelog m ++ place a0 img ++ pointer_cells behind /\
  eeprom (flush m) =
    apply_writes (pointer_cells behind)
                 (apply_writes (place a0 img) (eeprom m)).
Proof.
  intros Hn Ha Hmax Hfit a0 es img behind.
  pose proof (tlog_pointer_range m) as Hr0.
  destruct (write_log_spec m a0 ltac:(subst a0; lia) Hmax Hfit)
    as (Hl & Hc & _).
  fold es img in Hl, Hc. fold behind in Hc.
  assert (Hlog : eelog (flush m)
                 = eelog m ++ place a0 img ++ pointer_cells behind).
  { rewrite flush_taken by assumption. fold a0.
    rewrite update_pointer_log, Hl, <- app_assoc. reflexivity. }
  split; [exact Hc|]. split; [exact Hlog|].
  destruct (flush_store m) as (l & Hl' & He).
  rewrite Hlog in Hl'. apply app_inv_head in Hl'. subst l.
  rewrite He, apply_writes_app. reflexivity.
Qed.

(** The flush touches the pointer cells and the cells from the cursor up to
    the cursor it reaches behind the end marker, and no other cell. *)
Lemma flush_other (m : machine) (a : Z) :
  EEPROM_MAX_ADDRESS + 270 < 65536 ->
  forallb fits (logged m) = true ->
  a <> EEPROM_TLOG_POINTER_HI ->
  a <> EEPROM_TLOG_POINTER_LO ->
  a < tlog_pointer m \/ (write_log m (tlog_pointer m)).2 <= a ->
  eeprom_read_byte (flush m) a = eeprom_read_byte m a.
Proof.
  intros Hmax Hfit Hhi Hlo Hwin.
  destruct (0 <? nTransactions m)%nat eqn:En;
    [apply Nat.ltb_lt in En|
     apply Nat.ltb_ge in En; rewrite flush_skipped by (left; lia); reflexivity].
  destruct (tlog_pointer m <? EEPROM_MAX_ADDRESS) eqn:Ea;
    [apply Z.ltb_lt in Ea|
     apply Z.ltb_ge in Ea; rewrite flush_skipped by (right; lia); reflexivity].
  destruct (flush_store_taken m En Ea Hmax Hfit) as (Hb & _ & He).
  unfold eeprom_read_byte. rewrite He. f_equal.
  rewrite apply_writes_other.
  - apply apply_writes_other.
    eapply Forall_impl; [apply place_addresses|].
    cbn beta. intros w Hw. lia.
  - unfold pointer_cells. repeat constructor; simpl; congruence.
Qed.

Lemma classify_other (m : machine) (freq a : Z) :
  a <> EEPROM_WARM_RESET ->
  eeprom_read_byte (classify m freq) a = eeprom_read_byte m a.
Proof.
  intros Ha. unfold classify.
  destruct (freq =? 0); [apply read_write_other; congruence|].
  destruct (_ =? WARM_RESET_VALUE);
    rewrite read_write_other by congruence; reflexivity.
Qed.

(** The handler behind the store of the counter: what a cell outside the
    log window, other than pointer and flag, holds afterwards. *)
Lemma handler_other (m : machine) (freq a : Z) :
  let m0 := eeprom_write_byte (wdt_disable m) EEPROM_COUNTER (nCounter m) in
  EEPROM_MAX_ADDRESS + 270 < 65536 ->
  forallb fits (logged m) = true ->
  a <> EEPROM_TLOG_POINTER_HI ->
  a <> EEPROM_TLOG_POINTER_LO ->
  a <> EEPROM_WARM_RESET ->
  a < tlog_pointer m0 \/ (write_log m0 (tlog_pointer m0)).2 <= a ->
  eeprom_read_byte (INT0_vect m freq) a = eeprom_read_byte m0 a.
Proof.
  intros m0 Hmax Hfit Hhi Hlo Hw Hwin.
  change (INT0_vect m freq)
    with (wdt_enable (set_int0 (classify (flush m0) freq) false)).
  change (eeprom_read_byte (classify (flush m0) freq) a = eeprom_read_byte m0 a).
  rewrite classify_other by exact Hw.
  apply flush_other; assumption.
Qed.

(** ** What a terminal reset leaves alone *)

(** X1. The handler writes the counter cell, the flag cell, the two pointer
    cells and the cells of the log from the cursor up to the cursor reached
    behind the end marker. Every other cell of the EEPROM holds after the
    handler what it held before. *)
Theorem handler_frame (m : machine) (freq a : Z) :
  let m0 := eeprom_write_byte (wdt_disable m) EEPROM_COUNTER (nCounter m) in
  EEPROM_MAX_ADDRESS + 270 < 65536 ->
  forallb fits (logged m) = true ->
  a <> EEPROM_COUNTER ->
  a <> EEPROM_TLOG_POINTER_HI ->
  a <> EEPROM_TLOG_POINTER_LO ->
  a <> EEPROM_WARM_RESET ->
  a < tlog_pointer m0 \/ (write_log m0 (tlog_pointer m0)).2 <= a ->
  eeprom_read_byte (INT0_vect m freq) a = eeprom_read_byte m a.
Proof.
  intros m0 Hmax Hfit Hc Hhi Hlo Hw Hwin.
  rewrite (handler_other m freq a Hmax Hfit Hhi Hlo Hw Hwin).
  rewrite read_write_other by congruence. reflexivity.
Qed.

(** X2. The transaction counter survives the restart: when the counter
    cell is none of the pointer and flag cells and lies outside the log
    window, [InitSCD] on the boot after the handler reads back into
    [nCounter] the value that the handler found there. *)
Theorem counter_survives_reset (m : machine) (freq lcd : Z) :
  let m0 := eeprom_write_byte (wdt_disable m) EEPROM_COUNTER (nCounter m) in
  EEPROM_MAX_ADDRESS + 270 < 65536 ->
  forallb fits (logged m) = true ->
  EEPROM_COUNTER <> EEPROM_TLOG_POINTER_HI ->
  EEPROM_COUNTER <> EEPROM_TLOG_POINTER_LO ->
  EEPROM_COUNTER <> EEPROM_WARM_RESET ->
  EEPROM_COUNTER < tlog_pointer m0 \/
    (write_log m0 (tlog_pointer m0)).2 <= EEPROM_COUNTER ->
  nCounter (InitSCD (INT0_vect m freq) lcd) = nCounter m.
Proof.
  intros m0 Hmax Hfit Hhi Hlo Hw Hwin.
  assert (Hread : eeprom_read_byte (INT0_vect m freq) EEPROM_COUNTER
                  = nCounter m).
  { rewrite (handler_other m freq _ Hmax Hfit Hhi Hlo Hw Hwin).
    apply read_write_same. }
  unfold InitSCD. destruct (lcd =? 0); exact Hread.
Qed.

(** X3. A terminal reset does not change the application: when the
    application cell is none of the cells that the handler writes, a boot
    without configuration request after the handler selects the identifier
    that the store held before the handler. *)
Theorem application_survives_reset (m : machine) (freq : Z)
    (inp : boot_inputs) :
  let m0 := eeprom_write_byte (wdt_disable m) EEPROM_COUNTER (nCounter m) in
  EEPROM_MAX_ADDRESS + 270 < 65536 ->
  forallb fits (logged m) = true ->
  EEPROM_APPLICATION <> EEPROM_COUNTER ->
  EEPROM_APPLICATION <> EEPROM_TLOG_POINTER_HI ->
  EEPROM_APPLICATION <> EEPROM_TLOG_POINTER_LO ->
  EEPROM_APPLICATION <> EEPROM_WARM_RESET ->
  EEPROM_APPLICATION < tlog_pointer m0 \/
    (write_log m0 (tlog_pointer m0)).2 <= EEPROM_APPLICATION ->
  GetButtonB inp <> 0 ->
  selected (boot (INT0_vect m freq) inp)
    = eeprom_read_byte m EEPROM_APPLICATION.
Proof.
  intros m0 Hmax Hfit Hc Hhi Hlo Hw Hwin Hb.
  assert (Hread : eeprom_read_byte (INT0_vect m freq) EEPROM_APPLICATION
                  = eeprom_read_byte m EEPROM_APPLICATION).
  { rewrite (handler_other m freq _ Hmax Hfit Hhi Hlo Hw Hwin).
    rewrite read_write_other by congruence. reflexivity. }
  apply Z.eqb_neq in Hb. unfold boot. rewrite Hb.
  unfold InitSCD. destruct (CheckLCD inp =? 0); exact Hread.
Qed.

(** X4. The warm-reset byte of the next boot: when the flag cell is none of
    the counter and pointer cells and lies outside the log window, [InitSCD]
    on the boot after the handler loads into [warmResetByte] 0 when the
    handler saw no terminal clock or found the flag at the warm-reset value,
    and the warm-reset value otherwise. *)
Theorem warm_byte_at_next_boot (m : machine) (freq lcd : Z) :
  let m0 := eeprom_write_byte (wdt_disable m) EEPROM_COUNTER (nCounter m) in
  EEPROM_MAX_ADDRESS + 270 < 65536 ->
  forallb fits (logged m) = true ->
  EEPROM_WARM_RESET <> EEPROM_COUNTER ->
  EEPROM_WARM_RESET <> EEPROM_TLOG_POINTER_HI ->
  EEPROM_WARM_RESET <> EEPROM_TLOG_POINTER_LO ->
  EEPROM_WARM_RESET < tlog_pointer m0 \/
    (write_log m0 (tlog_pointer m0)).2 <= EEPROM_WARM_RESET ->
  warmResetByte (InitSCD (INT0_vect m freq) lcd) =
    if freq =? 0 then 0
    else if eeprom_read_byte m EEPROM_WARM_RESET =? WARM_RESET_VALUE then 0
         else u8 WARM_RESET_VALUE.
Proof.
  intros m0 Hmax Hfit Hc Hhi Hlo Hwin.
  assert (Hread : eeprom_read_byte (INT0_vect m freq) EEPROM_WARM_RESET =
    if freq =? 0 then 0
    else if eeprom_read_byte m EEPROM_WARM_RESET =? WARM_RESET_VALUE then 0
         else u8 WARM_RESET_VALUE).
  { change (INT0_vect m freq)
      with (wdt_enable (set_int0 (classify (flush m0) freq) false)).
    change (eeprom_read_byte (classify (flush m0) freq) EEPROM_WARM_RESET = 
      if freq =? 0 then 0
      else if eeprom_read_byte m EEPROM_WARM_RESET =? WARM_RESET_VALUE then 0
           else u8 WARM_RESET_VALUE).
    rewrite classify_flag.
    rewrite (flush_other m0 _ Hmax Hfit Hhi Hlo Hwin).
    unfold m0. rewrite read_write_other by congruence. reflexivity. }
  unfold InitSCD. destruct (lcd =? 0); exact Hread.
Qed.

(** ** The log in the store *)

(** X5. What the flush sends to the log is what the store holds afterwards:
    when the two pointer cells lie outside the log window, each byte of the
    image (application marker, id, emitted entries, end marker) is read back
    from the cell at its offset from the cursor. *)
Theorem log_read_back (m : machine) (k : nat) (b : Z) :
  (0 < nTransactions m)%nat ->
  tlog_pointer m < EEPROM_MAX_ADDRESS ->
  EEPROM_MAX_ADDRESS + 270 < 65536 ->
  forallb fits (logged m) = true ->
  let a0 := tlog_pointer m in
  let es := entries (logged m) in
  let img := image (selected m) (take (emitted es (a0 + 6)) es) in
  EEPROM_TLOG_POINTER_HI < a0 \/
    a0 + Z.of_nat (length img) <= EEPROM_TLOG_POINTER_HI ->
  EEPROM_TLOG_POINTER_LO < a0 \/
    a0 + Z.of_nat (length img) <= EEPROM_TLOG_POINTER_LO ->
  img !! k = Some b ->
  eeprom_read_byte (flush m) (a0 + Z.of_nat k) = b.
Proof.
  intros Hn Ha Hmax Hfit a0 es img Hhi Hlo Hk.
  destruct (flush_store_taken m Hn Ha Hmax Hfit) as (_ & _ & He).
  fold a0 es img in He.
  pose proof (lookup_lt_Some _ _ _ Hk) as Hlt.
  unfold eeprom_read_byte. rewrite He.
  rewrite apply_writes_other.
  - rewrite (apply_place_lookup img a0 (eeprom m) k b Hk). reflexivity.
  - unfold pointer_cells. repeat constructor; cbn [fst]; lia.
Qed.

(** X6. The log is not overwritten by the flush that follows: when the low
    byte of the cursor behind the end marker is below [0xF8], a machine that
    finds the pointer cells as the flush left them starts its own flush at
    the next multiple of 8 above that cursor, and every cell of the log that
    it writes lies above every cell of the log written before. *)
Theorem next_flush_starts_behind (m m2 : machine) :
  EEPROM_TLOG_POINTER_HI <> EEPROM_TLOG_POINTER_LO ->
  (0 < nTransactions m)%nat ->
  tlog_pointer m < EEPROM_MAX_ADDRESS ->
  EEPROM_MAX_ADDRESS + 270 < 65536 ->
  forallb fits (logged m) = true ->
  let behind := (write_log m (tlog_pointer m)).2 in
  behind mod 256 < 248 ->
  eeprom_read_byte m2 EEPROM_TLOG_POINTER_HI
    = eeprom_read_byte (flush m) EEPROM_TLOG_POINTER_HI ->
  eeprom_read_byte m2 EEPROM_TLOG_POINTER_LO
    = eeprom_read_byte (flush m) EEPROM_TLOG_POINTER_LO ->
  (0 < nTransactions m2)%nat ->
  tlog_pointer m2 < EEPROM_MAX_ADDRESS ->
  forallb fits (logged m2) = true ->
  tlog_pointer m2 = 8 * (behind / 8 + 1) /\
  exists W1 W2,
    eelog (flush m) = eelog m ++ W1 ++ pointer_cells behind /\
    eelog (flush m2) =
      eelog m2 ++ W2 ++ pointer_cells (write_log m2 (tlog_pointer m2)).2 /\
    Forall (fun w1 => Forall (fun w2 => w1.1 < w2.1) W2) W1.
Proof.
  intros Hne Hn Ha Hmax Hfit behind Hlow Hhi Hlo Hn2 Ha2 Hfit2.
  pose proof (tlog_pointer_range m) as Hr0.
  destruct (write_log_spec m (tlog_pointer m) ltac:(lia) Hmax Hfit)
    as (_ & Hc & Hle & _).
  fold behind in Hc, Hle. rewrite image_length in Hc.
  assert (Hb : 0 <= behind < 65536) by lia.
  assert (Hp : tlog_pointer m2 = 8 * (behind / 8 + 1)).
  { unfold tlog_pointer at 1. rewrite Hhi, Hlo.
    fold (stored_cursor (flush m)).
    rewrite flush_taken by assumption. fold behind.
    rewrite stored_cursor_update by assumption.
    apply Z.ltb_lt in Hlow. rewrite Hlow. apply Z.ltb_lt in Hlow.
    assert (Hnext : behind / 256 * 256 + 8 * (behind mod 256 / 8 + 1)
                    = 8 * (behind / 8 + 1))
      by (Z.div_mod_to_equations; lia).
    rewrite Hnext.
    assert (8 * (behind / 8 + 1) <= behind + 8)
      by (Z.div_mod_to_equations; lia).
    destruct (8 * (behind / 8 + 1) =? 65535) eqn:E; [lia|reflexivity]. }
  split; [exact Hp|].
  destruct (flush_store_taken m Hn Ha Hmax Hfit) as (Hb1 & Hl1 & _).
  destruct (flush_store_taken m2 Hn2 Ha2 Hmax Hfit2) as (_ & Hl2 & _).
  fold behind in Hb1, Hl1.
  eexists. eexists. split; [exact Hl1|]. split; [exact Hl2|].
  eapply Forall_impl; [apply place_addresses|]. cbn beta. intros w1 Hw1.
  eapply Forall_impl; [apply place_addresses|]. cbn beta. intros w2 Hw2.
  assert (behind < 8 * (behind / 8 + 1)) by (Z.div_mod_to_equations; lia).
  lia.
Qed.

(** X7. The page rounding works on the low byte alone: when the low byte of
    the cursor behind the end marker is [0xF8] or more, the cursor that is
    persisted is that cursor with its low byte cleared, at least 248 below
    the end of the log just written. *)
Theorem page_rounding_drops_carry (m : machine) :
  EEPROM_TLOG_POINTER_HI <> EEPROM_TLOG_POINTER_LO ->
  (0 < nTransactions m)%nat ->
  tlog_pointer m < EEPROM_MAX_ADDRESS ->
  EEPROM_MAX_ADDRESS + 270 < 65536 ->
  forallb fits (logged m) = true ->
  let behind := (write_log m (tlog_pointer m)).2 in
  248 <= behind mod 256 ->
  stored_cursor (flush m) = behind - behind mod 256 /\
  stored_cursor (flush m) + 248 <= behind.
Proof.
  intros Hne Hn Ha Hmax Hfit behind Hhigh.
  pose proof (tlog_pointer_range m) as Hr0.
  destruct (write_log_spec m (tlog_pointer m) ltac:(lia) Hmax Hfit)
    as (_ & Hc & Hle & _).
  fold behind in Hc, Hle. rewrite image_length in Hc.
  assert (Hb : 0 <= behind < 65536) by lia.
  rewrite flush_taken by assumption. fold behind.
  rewrite stored_cursor_update by assumption.
  apply Z.ltb_ge in Hhigh. rewrite Hhigh. apply Z.ltb_ge in Hhigh.
  split; Z.div_mod_to_equations; lia.
Qed.

(** ** Exchanges without streams *)

Lemma log_loop_no_stream (recs : list CRP) :
  forall (i : nat) (a : Z) (m : machine),
    Forall (fun r => SerializeCommand (cmd r) = None /\
                     SerializeResponse (response r) = None) recs ->
    (log_loop recs i a m).2 = a /\
    eelog (log_loop recs i a m).1 = eelog m /\
    released (log_loop recs i a m).1 = released m ++ seq i (length recs).
Proof.
  induction recs as [|r rest IH]; intros i a m Hnone.
  - simpl. rewrite app_nil_r. repeat split.
  - apply Forall_cons in Hnone as [[Hc Hr] Hnone].
    cbn [log_loop]. rewrite Hc, Hr. cbn [log_stream].
    destruct (IH (S i) a (FreeCRP i m) Hnone) as (Ha & Hl & Hrel).
    rewrite Ha, Hl, Hrel. simpl. rewrite <- app_assoc. repeat split.
Qed.

(** X15. Exchanges that yield no stream cost no log space but are still
    flushed: when both serializers return [NULL] for every logged exchange,
    the flush writes the application marker, the id and the end marker,
    eleven bytes from the cursor, and releases every exchange, also when
    these eleven bytes run past [EEPROM_MAX_ADDRESS]. *)
Theorem flush_without_streams (m : machine) :
  (0 < nTransactions m <= length (transactionData m))%nat ->
  tlog_pointer m < EEPROM_MAX_ADDRESS ->
  EEPROM_MAX_ADDRESS + 270 < 65536 ->
  Forall (fun r => SerializeCommand (cmd r) = None /\
                   SerializeResponse (response r) = None) (logged m) ->
  let a0 := tlog_pointer m in
  eelog (flush m) =
    eelog m ++ place a0 (appstr ++ [selected m] ++ endstr)
      ++ pointer_cells (a0 + 11) /\
  released (flush m) = released m ++ seq 0 (nTransactions m).
Proof.
  intros [Hn Hcap] Ha Hmax Hnone a0.
  pose proof (tlog_pointer_range m) as Hr0. fold a0 in Hr0, Ha.
  rewrite flush_taken by assumption. fold a0.
  destruct (update_pointer_ram (write_log m a0).1 (write_log m a0).2)
    as [Hrel _].
  rewrite update_pointer_log, Hrel. clear Hrel.
  unfold write_log.
  destruct (write_block_spec appstr m a0) as (Hl1 & Hr1 & Hs1 & Hn1 & Ht1).
  set (m1 := eeprom_write_block m appstr a0) in *.
  rewrite (u16_small (a0 + 5)) by lia.
  rewrite (u16_small (a0 + 5 + 1)) by lia.
  set (m2 := eeprom_write_byte m1 (a0 + 5) (selected m1)).
  assert (Hlog : take (nTransactions m2) (transactionData m2) = logged m).
  { unfold logged.
    change (nTransactions m2) with (nTransactions m1).
    change (transactionData m2) with (transactionData m1).
    rewrite Hn1, Ht1. reflexivity. }
  rewrite Hlog.
  destruct (log_loop_no_stream (logged m) 0%nat (a0 + 5 + 1) m2 Hnone)
    as (Ha3 & Hl3 & Hr3).
  destruct (log_loop (logged m) 0%nat (a0 + 5 + 1) m2) as [m3 a3].
  cbn [fst snd] in *. subst a3.
  destruct (write_block_spec endstr m3 (a0 + 5 + 1)) as (Hl4 & Hr4 & _).
  rewrite (u16_small (a0 + 5 + 1 + 5)) by lia.
  rewrite Hl4, Hr4, Hl3, Hr3.
  change (eelog m2) with (eelog m1 ++ [(a0 + 5, selected m1)]).
  change (released m2) with (released m1).
  rewrite Hl1, Hr1, Hs1. split.
  - rewrite !place_app. simpl length. cbn [place].
    change (Z.of_nat 5) with 5. change (Z.of_nat 1) with 1.
    replace (a0 + 5 + 1 + 5) with (a0 + 11) by lia.
    rewrite <- !app_assoc. reflexivity.
  - unfold logged. rewrite length_take_le by exact Hcap. reflexivity.
Qed.

End Store.

Section Boot.

Context {H : Headers}.
Variable app_body : proc -> machine -> option machine.

(** ** Configuration at boot *)

(** X8. A choice made in the menu persists: with button B held and the LCD
    working, an entry of the menu other than the erase entry is stored in
    the application cell, that write being the only one, and the watchdog
    is armed; a later boot without button B that finds this cell selects
    the same identifier, leaves the watchdog off and writes nothing. *)
Theorem selection_persists (m : machine) (inp : boot_inputs) :
  GetButtonB inp = 0 ->
  CheckLCD inp = 0 ->
  0 <= menu_entry inp -> menu_entry inp + 1 < 256 ->
  menu_entry inp + 1 <> APP_ERASE_EEPROM ->
  let id := menu_entry inp + 1 in
  let m1 := boot m inp in
  selected m1 = id /\
  eeprom_read_byte m1 EEPROM_APPLICATION = id /\
  eelog m1 = eelog m ++ [(EEPROM_APPLICATION, id)] /\
  wdt m1 = true /\
  forall (m2 : machine) (inp2 : boot_inputs),
    GetButtonB inp2 <> 0 ->
    eeprom_read_byte m2 EEPROM_APPLICATION
      = eeprom_read_byte m1 EEPROM_APPLICATION ->
    selected (boot m2 inp2) = id /\
    wdt (boot m2 inp2) = false /\
    eelog (boot m2 inp2) = eelog m2.
Proof.
  intros Hb Hlcd Hi0 Hi1 Hne id m1.
  assert (Hsel : selected m1 = id /\
                 eeprom_read_byte m1 EEPROM_APPLICATION = id /\
                 eelog m1 = eelog m ++ [(EEPROM_APPLICATION, id)] /\
                 wdt m1 = true).
  { subst m1. unfold boot. rewrite Hb, Hlcd. cbn [Z.eqb InitSCD].
    unfold SelectApplication.
    cbn [lcdAvailable set_lcdAvailable selected set_selected].
    change (1 =? 0) with false. cbv iota.
    rewrite (u8_small (menu_entry inp + 1)) by lia. fold id.
    apply Z.eqb_neq in Hne. fold id in Hne. rewrite Hne.
    repeat split. apply read_write_same. }
  destruct Hsel as (Hs & Hr & Hl & Hw).
  split; [exact Hs|]. split; [exact Hr|]. split; [exact Hl|].
  split; [exact Hw|].
  intros m2 inp2 Hb2 Hcell.
  apply Z.eqb_neq in Hb2. unfold boot. rewrite Hb2.
  unfold InitSCD. rewrite Hr in Hcell.
  destruct (CheckLCD inp2 =? 0); repeat split; exact Hcell.
Qed.

(** X9. A configuration request without LCD selects nothing:
    [SelectApplication] returns 0, and when 0 is neither the erase entry
    nor the identifier of an application, [main] stores 0, arms the
    watchdog, reaches [default:], stores the identifier of [Terminal] over
    the 0 and runs [Terminal]. *)
Theorem request_without_lcd (m : machine) (inp : boot_inputs) :
  GetButtonB inp = 0 ->
  CheckLCD inp <> 0 ->
  APP_ERASE_EEPROM <> 0 ->
  known_app 0 = false ->
  0 <= APP_TERMINAL < 256 ->
  exists m1,
    main app_body m inp = call app_body Terminal m1 Switching /\
    selected m1 = APP_TERMINAL /\
    eeprom_read_byte m1 EEPROM_APPLICATION = APP_TERMINAL /\
    eelog m1 =
      eelog m ++ [(EEPROM_APPLICATION, 0); (EEPROM_APPLICATION, APP_TERMINAL)] /\
    wdt m1 = true /\
    calls m1 = calls m.
Proof.
  intros Hb Hlcd Hne Hk Hid.
  assert (Hboot : selected (boot m inp) = 0 /\
                  eelog (boot m inp) = eelog m ++ [(EEPROM_APPLICATION, 0)] /\
                  wdt (boot m inp) = true /\
                  calls (boot m inp) = calls m).
  { unfold boot. rewrite Hb. cbn [Z.eqb]. unfold InitSCD.
    apply Z.eqb_neq in Hlcd. rewrite Hlcd.
    unfold SelectApplication.
    cbn [lcdAvailable set_lcdAvailable selected set_selected].
    change (0 =? 0) with true. cbv iota.
    assert ((0 =? APP_ERASE_EEPROM) = false) as ->
      by (apply Z.eqb_neq; congruence).
    repeat split. }
  destruct Hboot as (Hs & Hl & Hw & Hc).
  unfold main. rewrite dispatch_unknown by (rewrite Hs; exact Hk).
  eexists. split; [reflexivity|].
  cbn [selected set_selected eeprom_write_byte set_eeprom eelog wdt calls].
  rewrite (u8_small APP_TERMINAL) by exact Hid.
  rewrite Hl, Hw, Hc, <- app_assoc.
  repeat split. apply read_write_same.
Qed.

End Boot.

Section MenuProperties.

Context {H : Headers} {B : Menu}.

(** ** The menu *)

Lemma for_entry_inv (i : Z) (shown : list lcd_line) :
  0 <= i ->
  menu_inv (for_entry i shown).1 (for_entry i shown).2.
Proof.
  intros Hi. unfold for_entry.
  destruct (i <? APPLICATION_COUNT) eqn:E; simpl; [|exact I].
  apply Z.ltb_lt in E. split; [lia|]. apply last_snoc.
Qed.

(** Whatever is read, the menu returns only from an entry of the menu, and
    the entry is the one on display. *)
Lemma menu_run_chosen (samples : list Z) :
  forall pc shown r shown' rest,
    APPLICATION_COUNT <= 255 ->
    menu_inv pc shown ->
    menu_run pc shown samples = Chosen r shown' rest ->
    1 <= r <= APPLICATION_COUNT /\ last shown' = Some (LineApp (r - 1)).
Proof.
  induction samples as [|tmp samples IH];
    intros pc shown r shown' rest Hcount Hinv Hrun; [discriminate|].
  destruct pc as [| | |i]; cbn [menu_run] in Hrun.
  - destruct (pressed BUTTON_C tmp);
      refine (IH _ _ _ _ _ Hcount _ Hrun); exact I.
  - destruct (pressed BUTTON_C tmp);
      refine (IH _ _ _ _ _ Hcount _ Hrun); exact I.
  - destruct (pressed BUTTON_C tmp);
      [|refine (IH _ _ _ _ _ Hcount _ Hrun); exact I].
    pose proof (for_entry_inv 0 shown ltac:(lia)) as Hinv'.
    destruct (for_entry 0 shown) as [pc' sh'].
    apply (IH _ _ _ _ _ Hcount Hinv' Hrun).
  - destruct Hinv as [Hi Hlast].
    destruct (pressed BUTTON_D tmp).
    + injection Hrun as <- <- <-.
      rewrite (u8_small (i + 1)) by lia.
      split; [lia|]. replace (i + 1 - 1) with i by lia. exact Hlast.
    + destruct (pressed BUTTON_C tmp).
      * pose proof (for_entry_inv (u8 (i + 1)) shown
                      ltac:(rewrite u8_small; lia)) as Hinv'.
        destruct (for_entry (u8 (i + 1)) shown) as [pc' sh'].
        apply (IH _ _ _ _ _ Hcount Hinv' Hrun).
      * apply (IH (AtEntry i) _ _ _ _ Hcount (conj Hi Hlast) Hrun).
Qed.

(** X10. [SelectApplication] returns 0 exactly when the LCD is missing;
    with the LCD it returns, if it returns at all, the number [i + 1] of a
    menu entry [i] below [APPLICATION_COUNT], whatever the buttons do. *)
Theorem menu_returns_an_entry (m : machine) (samples : list Z) (r : Z)
    (shown : list lcd_line) (rest : list Z) :
  APPLICATION_COUNT <= 255 ->
  SelectApplication_loop m samples = Chosen r shown rest ->
  (r = 0 <-> lcdAvailable m = 0) /\
  (lcdAvailable m <> 0 ->
   1 <= r <= APPLICATION_COUNT /\ r = SelectApplication m (r - 1)).
Proof.
  intros Hcount Hrun. unfold SelectApplication_loop in Hrun.
  unfold SelectApplication.
  destruct (lcdAvailable m =? 0) eqn:E.
  - apply Z.eqb_eq in E. injection Hrun as <- _ _.
    split; [tauto|]. intros Hne. contradiction.
  - apply Z.eqb_neq in E.
    destruct (menu_run_chosen _ AtScroll _ _ _ _ Hcount I Hrun) as [Hr _].
    split; [split; intros; lia|].
    intros _. split; [exact Hr|].
    replace (r - 1 + 1) with r by lia. rewrite u8_small; lia.
Qed.

(** X11. The application that is chosen is the one on display: when
    [SelectApplication] returns [r] with the LCD working, the last line
    that it has shown is the entry [r - 1]. *)
Theorem menu_returns_what_it_shows (m : machine) (samples : list Z) (r : Z)
    (shown : list lcd_line) (rest : list Z) :
  APPLICATION_COUNT <= 255 ->
  lcdAvailable m <> 0 ->
  SelectApplication_loop m samples = Chosen r shown rest ->
  last shown = Some (LineApp (r - 1)).
Proof.
  intros Hcount Hlcd Hrun. unfold SelectApplication_loop in Hrun.
  apply Z.eqb_neq in Hlcd. rewrite Hlcd in Hrun.
  apply (menu_run_chosen _ AtScroll _ _ _ _ Hcount I Hrun).
Qed.

(** X12. Without button D nothing is chosen: as long as no reading has
    button D, [SelectApplication] with the LCD working does not return. *)
Theorem menu_waits_for_button_D (m : machine) (samples : list Z) :
  lcdAvailable m <> 0 ->
  Forall (fun tmp => pressed BUTTON_D tmp = false) samples ->
  exists pc shown, SelectApplication_loop m samples = Waiting pc shown.
Proof.
  intros Hlcd Hd. unfold SelectApplication_loop.
  apply Z.eqb_neq in Hlcd. rewrite Hlcd.
  generalize AtScroll, [LineEmpty; LineScroll].
  induction Hd as [|tmp samples Htmp _ IH]; intros pc shown.
  - exists pc, shown. reflexivity.
  - destruct pc as [| | |i]; cbn [menu_run]; rewrite ?Htmp.
    + destruct (pressed BUTTON_C tmp); apply IH.
    + destruct (pressed BUTTON_C tmp); apply IH.
    + destruct (pressed BUTTON_C tmp); [|apply IH].
      destruct (for_entry 0 shown). apply IH.
    + destruct (pressed BUTTON_C tmp); [|apply IH].
      destruct (for_entry (u8 (i + 1)) shown). apply IH.
Qed.

(** X13. Readings with neither button C nor button D do not count: taking
    them out of the readings changes neither what [SelectApplication]
    returns nor what it shows, nor where it waits. *)
Theorem menu_ignores_idle_readings (pc : menu_pc) (shown : list lcd_line)
    (samples : list Z) :
  menu_run pc shown (filter (fun tmp => idle tmp = false) samples) =
    match menu_run pc shown samples with
    | Chosen r shown' rest =>
        Chosen r shown' (filter (fun tmp => idle tmp = false) rest)
    | Waiting pc' shown' => Waiting pc' shown'
    end.
Proof.
  revert pc shown.
  induction samples as [|tmp samples IH]; intros pc shown; [reflexivity|].
  rewrite filter_cons.
  destruct (decide (idle tmp = false)) as [Hact|Hidle].
  - destruct pc as [| | |i]; cbn [menu_run];
      destruct (pressed BUTTON_C tmp); destruct (pressed BUTTON_D tmp);
      try apply IH; try reflexivity;
      destruct (for_entry _ shown); apply IH.
  - apply not_false_is_true in Hidle. unfold idle in Hidle.
    apply andb_prop in Hidle as [Ec Ed].
    apply negb_true_iff in Ec. apply negb_true_iff in Ed.
    rewrite IH.
    destruct pc as [| | |i]; cbn [menu_run]; rewrite ?Ed, ?Ec; reflexivity.
Qed.

(** Button C in an entry moves to the next entry, as long as there is
    one. *)
Lemma menu_browse (cs : list Z) :
  forall (i : Z) (shown : list lcd_line) (tail : list Z),
    0 <= i ->
    i + Z.of_nat (length cs) < APPLICATION_COUNT ->
    APPLICATION_COUNT <= 255 ->
    Forall (fun tmp => pressed BUTTON_C tmp = true /\
                       pressed BUTTON_D tmp = false) cs ->
    menu_run (AtEntry i) shown (cs ++ tail) =
      menu_run (AtEntry (i + Z.of_nat (length cs)))
               (shown ++ map LineApp (seqZ (i + 1) (Z.of_nat (length cs))))
               tail.
Proof.
  induction cs as [|c cs IH]; intros i shown tail Hi Hlt Hcount Hcs.
  - simpl. rewrite Z.add_0_r, app_nil_r. reflexivity.
  - apply Forall_cons in Hcs as [[Hc Hd] Hcs].
    cbn [length] in *. cbn [app menu_run]. rewrite Hd, Hc.
    unfold for_entry. rewrite (u8_small (i + 1)) by lia.
    assert ((i + 1 <? APPLICATION_COUNT) = true) as ->
      by (apply Z.ltb_lt; lia).
    rewrite (IH (i + 1)) by (assumption || lia).
    rewrite (seqZ_cons (i + 1) (Z.of_nat (S (length cs)))) by lia.
    replace (Z.pred (Z.of_nat (S (length cs)))) with (Z.of_nat (length cs))
      by lia.
    replace (Z.succ (i + 1)) with (i + 1 + 1) by lia.
    replace (i + 1 + Z.of_nat (length cs))
      with (i + Z.of_nat (S (length cs))) by lia.
    cbn [map]. rewrite <- app_assoc. reflexivity.
Qed.

(** X14. How an entry is reached: with the LCD working, button C pressed
    three times for the three prompts and then [j] times more, with [j]
    below [APPLICATION_COUNT], followed by button D, makes
    [SelectApplication] return [j + 1], after it has shown the prompts and
    the entries 0 to [j]; the readings that follow are not consumed. *)
Theorem menu_key_sequence (m : machine) (cs : list Z) (d : Z)
    (rest : list Z) (j : nat) :
  lcdAvailable m <> 0 ->
  Z.of_nat j < APPLICATION_COUNT ->
  APPLICATION_COUNT <= 255 ->
  length cs = (3 + j)%nat ->
  Forall (fun tmp => pressed BUTTON_C tmp = true /\
                     pressed BUTTON_D tmp = false) cs ->
  pressed BUTTON_D d = true ->
  SelectApplication_loop m (cs ++ d :: rest) =
    Chosen (Z.of_nat j + 1)
           ([LineEmpty; LineScroll; LineSelect; LineAvailable]
              ++ map LineApp (seqZ 0 (Z.of_nat j + 1)))
           rest.
Proof.
  intros Hlcd Hj Hcount Hlen Hcs Hd.
  unfold SelectApplication_loop.
  apply Z.eqb_neq in Hlcd. rewrite Hlcd.
  destruct cs as [|c1 [|c2 [|c3 cs]]]; try discriminate.
  injection Hlen as Hlen.
  apply Forall_cons in Hcs as [[Hc1 _] Hcs].
  apply Forall_cons in Hcs as [[Hc2 _] Hcs].
  apply Forall_cons in Hcs as [[Hc3 _] Hcs].
  cbn [app menu_run]. rewrite Hc1, Hc2, Hc3.
  unfold for_entry.
  assert ((0 <? APPLICATION_COUNT) = true) as -> by (apply Z.ltb_lt; lia).
  rewrite (menu_browse cs 0) by (assumption || lia).
  rewrite Hlen. cbn [menu_run]. rewrite Hd.
  rewrite u8_small by lia.
  rewrite (seqZ_cons 0 (Z.of_nat j + 1)) by lia.
  replace (Z.pred (Z.of_nat j + 1)) with (Z.of_nat j) by lia.
  cbn [map app]. rewrite Z.add_0_l. reflexivity.
Qed.

(** X16. The menu goes round: with the LCD working and a menu that is not
    empty, button C pressed three times for the prompts and once for each
    entry shows every entry once and leads back to the first prompt. *)
Theorem menu_goes_round (shown : list lcd_line) (cs tail : list Z) :
  0 < APPLICATION_COUNT <= 255 ->
  Z.of_nat (length cs) = 3 + APPLICATION_COUNT ->
  Forall (fun tmp => pressed BUTTON_C tmp = true /\
                     pressed BUTTON_D tmp = false) cs ->
  menu_run AtScroll shown (cs ++ tail) =
    menu_run AtScroll
             (shown ++ [LineSelect; LineAvailable]
                ++ map LineApp (seqZ 0 APPLICATION_COUNT) ++ [LineScroll])
             tail.
Proof.
  intros Hcount Hlen Hcs.
  destruct cs as [|c1 [|c2 [|c3 cs]]]; cbn [length] in Hlen; try lia.
  apply Forall_cons in Hcs as [[Hc1 _] Hcs].
  apply Forall_cons in Hcs as [[Hc2 _] Hcs].
  apply Forall_cons in Hcs as [[Hc3 _] Hcs].
  cbn [app menu_run]. rewrite Hc1, Hc2, Hc3.
  unfold for_entry at 1.
  assert ((0 <? APPLICATION_COUNT) = true) as -> by (apply Z.ltb_lt; lia).
  induction cs as [|c cs' _] using rev_ind; [cbn [length] in Hlen; lia|].
  apply Forall_app in Hcs as [Hcs' Hc]. apply Forall_inv in Hc as [Hc Hd].
  rewrite length_app in Hlen. cbn [length] in Hlen.
  rewrite <- (app_assoc cs' [c] tail).
  rewrite (menu_browse cs' 0) by (assumption || lia).
  cbn [app menu_run]. rewrite Hd, Hc.
  unfold for_entry.
  replace (0 + Z.of_nat (length cs') + 1) with APPLICATION_COUNT by lia.
  rewrite u8_small by lia. rewrite Z.ltb_irrefl.
  f_equal.
  rewrite (seqZ_cons 0 APPLICATION_COUNT) by lia.
  replace (Z.pred APPLICATION_COUNT) with (Z.of_nat (length cs')) by lia.
  cbn [map]. rewrite <- !app_assoc. reflexivity.
Qed.

End MenuProperties.

(** * The properties on the concrete build *)

#[local] Existing Instance bench.

(** ** Flush cut short next to the bound *)

(** The cursor stands one byte below [EEPROM_MAX_ADDRESS] and two exchanges
    are logged. The application marker, the id, the first command and the
    end marker are written, most of them above [EEPROM_MAX_ADDRESS]; the
    response of the first exchange and the second exchange are not. *)
Lemma flush_truncation_witness :
  let m := bench_machine (bench_store 0xFDF 2) [select_crp; get_response_crp] in
  exists k : nat,
    (k <= 4)%nat /\
    eelog (flush m) =
      place 0xFDF (image 2 (take k (entries (logged m))))
        ++ pointer_cells
             (0xFDF + Z.of_nat (length (image 2 (take k (entries (logged m)))))) /\
    (forall j, (0 < j < k)%nat ->
       0xFDF + 6 + Z.of_nat (length (concat (take j (entries (logged m)))))
         <= 0xFE0) /\
    ((k < 4)%nat ->
       0xFE0 < 0xFDF + 6 + Z.of_nat (length (concat (take k (entries (logged m)))))).
Proof.
  intros m.
  exact (flush_truncation m ltac:(evaluate) ltac:(evaluate) ltac:(evaluate)
           ltac:(evaluate)).
Defined.

(** C1 fails as stated: on this flush, bytes are written above
    [EEPROM_MAX_ADDRESS], the end marker lies wholly above it, and the
    first exchange is left with its command but without its response. *)
Lemma flush_writes_past_the_bound :
  let m := bench_machine (bench_store 0xFDF 2) [select_crp; get_response_crp] in
  tlog_pointer m = 0xFDF /\
  EEPROM_MAX_ADDRESS = 0xFE0 /\
  eelog (flush m) =
    place 0xFDF (appstr ++ [2] ++ cmdstr ++ [0x00; 0xA4; 0x04; 0x00; 0x0E])
      ++ place 0xFEF endstr
      ++ [(0x28, 0x0F); (0x29, 0xF8)] /\
  ~ Forall (fun w => w.1 <= EEPROM_MAX_ADDRESS) (eelog (flush m)).
Proof.
  intros m. repeat split; try (vm_compute; reflexivity).
  intros Hall. rewrite Forall_forall in Hall.
  specialize (Hall (0xFEF, 0xBB)).
  assert (Hin : (0xFEF, 0xBB) ∈ eelog (flush m)).
  { apply list_elem_of_In. vm_compute. tauto. }
  specialize (Hall Hin). vm_compute in Hall. apply Hall. reflexivity.
Qed.

(** ** The persisted cursor on examples *)

(** One exchange flushed from the start of the log region: the cursor goes
    from [0x80] to [0x9C] and is persisted as [0xA0]. *)
Lemma cursor_after_flush_witness :
  let m := bench_machine (bench_store 0x80 2) [select_crp] in
  stored_cursor (flush m) mod 8 = 0 /\
  0x80 + 11 <= (write_log m 0x80).2 /\
  stored_cursor (flush m) <= (write_log m 0x80).2 + 8 /\
  stored_cursor (flush m) <= 0xFE0 + 278 /\
  ((write_log m 0x80).2 mod 256 < 248 ->
   stored_cursor (flush m) = 8 * ((write_log m 0x80).2 / 8 + 1) /\
   0x80 < stored_cursor (flush m)).
Proof.
  intros m.
  exact (cursor_after_flush m ltac:(evaluate) ltac:(evaluate) ltac:(evaluate)
           ltac:(evaluate) ltac:(evaluate)).
Defined.

(** C2 fails as stated. First machine: the cursor stands at [0x01E0], the
    flush ends at [0x01FC], the low byte wraps when 8 is added and the high
    byte stays, so that [0x0100] is persisted, below the cursor found.
    Second machine: the cursor stands one byte below [EEPROM_MAX_ADDRESS]
    and the persisted cursor lies above [EEPROM_MAX_ADDRESS]. *)
Lemma cursor_rewound_or_past_the_bound :
  let m1 := bench_machine (bench_store 0x01E0 2) [select_crp] in
  let m2 := bench_machine (bench_store 0xFDF 2) [select_crp] in
  (tlog_pointer m1 = 0x01E0 /\
   (write_log m1 0x01E0).2 = 0x01FC /\
   stored_cursor (flush m1) = 0x0100 /\
   stored_cursor (flush m1) < tlog_pointer m1) /\
  (tlog_pointer m2 = 0xFDF /\
   stored_cursor (flush m2) = 0xFF8 /\
   EEPROM_MAX_ADDRESS < stored_cursor (flush m2)).
Proof. intros m1 m2. repeat split; vm_compute; reflexivity. Qed.

(** ** The flag on examples *)

(** Two resets with the terminal clock running at 3.5 MHz. *)
Lemma warm_cold_toggle_witness :
  let m := bench_machine {[ 0x00 := 0 ]} [] in
  let m1 := classify m 3500 in
  let m2 := classify m1 3500 in
  reported m1 = Cold /\
  eeprom_read_byte m1 EEPROM_WARM_RESET = 0xAA /\
  reported m2 = Warm /\
  eeprom_read_byte m2 EEPROM_WARM_RESET = 0 /\
  forall (fs : list Z) (f : Z),
    Forall (fun f => f <> 0) fs -> f <> 0 ->
    let m' := classify (resets m fs) f in
    reported m' = (if Nat.even (length fs) then Cold else Warm) /\
    eeprom_read_byte m' EEPROM_WARM_RESET =
      (if Nat.even (length fs) then 0xAA else 0).
Proof.
  intros m.
  exact (warm_cold_toggle m 3500 3500 ltac:(evaluate) ltac:(evaluate)
           ltac:(evaluate) ltac:(evaluate)).
Defined.

(** C3 fails as stated: a reset without terminal clock does not take part
    in the cycle. From the flag unset, such a first reset leaves the flag
    unset; and after a first reset with clock, such a second reset clears
    the flag without finding Warm. *)
Lemma toggle_needs_the_clock :
  let m := bench_machine {[ 0x00 := 0 ]} [] in
  eeprom_read_byte m EEPROM_WARM_RESET = 0 /\
  eeprom_read_byte (INT0_vect m 0) EEPROM_WARM_RESET <> WARM_RESET_VALUE /\
  eeprom_read_byte (classify m 0) EEPROM_WARM_RESET <> WARM_RESET_VALUE /\
  reported (classify (classify m 3500) 0) <> Warm.
Proof. intros m. repeat split; vm_compute; discriminate. Qed.

(** ** Release of the exchanges *)

(** C4, the code at a flush that is cut short. The cursor stands at
    [0xFD0] with two exchanges logged. The command of the first exchange
    ends exactly at [EEPROM_MAX_ADDRESS], its response is written in full
    and takes the cursor above the bound; the [break] that follows jumps
    over [FreeCRP]. Both streams of the first exchange are in the log, yet
    neither this exchange nor the second one is released. *)
Lemma break_skips_FreeCRP :
  let m := bench_machine (bench_store 0xFD0 2) [select_crp; get_response_crp] in
  nTransactions m = 2%nat /\
  eelog (flush m) =
    place 0xFD0 (appstr ++ [2]
                 ++ cmdstr ++ [0x00; 0xA4; 0x04; 0x00; 0x0E]
                 ++ rspstr ++ [0x90; 0x00]
                 ++ endstr)
      ++ [(0x28, 0x0F); (0x29, 0xF0)] /\
  released (flush m) = [] /\
  released (INT0_vect m 3500) = [].
Proof. intros m. repeat split; vm_compute; reflexivity. Qed.

(** ** The scenario of the two exchanges *)

(** The two exchanges flushed from the start of the log region. *)
Lemma flush_complete_witness :
  let m := bench_machine (bench_store 0x80 2) [select_crp; get_response_crp] in
  eelog (flush m) =
    place 0x80 (appstr ++ [2]
                ++ (cmdstr ++ [0x00; 0xA4; 0x04; 0x00; 0x0E]
                    ++ rspstr ++ [0x90; 0x00])
                ++ (cmdstr ++ [0x00; 0xC0; 0x00; 0x00; 0x0E]
                    ++ rspstr ++ [0xDE; 0xAD; 0xBE; 0xEF; 0x90; 0x00])
                ++ endstr)
      ++ [(0x28, 0x00); (0x29, 0xB8)] /\
  (write_log m 0x80).2 = 0x80 + (5 + 1 + (5 + 5) + (5 + 2) + (5 + 5) + (5 + 6) + 5) /\
  released (flush m) = [0; 1]%nat /\
  nTransactions (flush m) = 2%nat /\
  nTransactions (InitSCD (flush m) 0) = 0%nat.
Proof.
  intros m.
  exact (flush_complete m
           [([0x00; 0xA4; 0x04; 0x00; 0x0E], [0x90; 0x00]);
            ([0x00; 0xC0; 0x00; 0x00; 0x0E], [0xDE; 0xAD; 0xBE; 0xEF; 0x90; 0x00])]
           0
           ltac:(evaluate) ltac:(evaluate) ltac:(evaluate) ltac:(evaluate)
           ltac:(repeat constructor)
           ltac:(evaluate)).
Defined.

(** C5 fails as stated: the handler does not reset the length of the
    buffer. After the flush of the scenario, and after the whole handler,
    [nTransactions] is still 2. *)
Lemma handler_keeps_nTransactions :
  let m := bench_machine (bench_store 0x80 2) [select_crp; get_response_crp] in
  nTransactions (flush m) = 2%nat /\
  nTransactions (INT0_vect m 3500) = 2%nat /\
  nTransactions (INT0_vect m 3500) <> 0%nat.
Proof. intros m. repeat split; vm_compute; discriminate. Qed.

(** ** Dispatch on examples *)

(** The store holds 9, which is no application. *)
Lemma unknown_app_fallback_witness :
  let m := set_selected (bench_machine (bench_store 0x80 9) []) 9 in
  exists m1,
    dispatch stay m = call stay Terminal m1 Switching /\
    selected m1 = 6 /\
    eeprom_read_byte m1 0x10 = 6 /\
    eelog m1 = [(0x10, 6)] /\
    calls m1 = [] /\
    forall (m' : machine) (inp : boot_inputs),
      GetButtonB inp <> 0 ->
      eeprom_read_byte m' 0x10 = eeprom_read_byte m1 0x10 ->
      exists m1',
        main stay m' inp = call stay Terminal m1' Switching /\
        selected m1' = 6 /\
        eeprom m1' = eeprom m' /\
        eelog m1' = eelog m' /\
        calls m1' = calls m'.
Proof.
  intros m.
  exact (unknown_app_fallback stay m ltac:(evaluate)
           ltac:(apply (bool_decide_unpack _); vm_compute; exact I)
           ltac:(evaluate)).
Defined.

(** The virtual serial port is selected and its entry point returns. *)
Lemma virtual_serial_falls_through_witness :
  let m := set_selected (bench_machine (bench_store 0x80 7) []) 7 in
  exists m1,
    dispatch leave m = call leave Terminal m1 Switching /\
    selected m1 = 6 /\
    eeprom_read_byte m1 0x10 = 6 /\
    eelog m1 = [(0x10, 6)] /\
    eeprom m1 = <[0x10 := 6]> (bench_store 0x80 7).
Proof.
  intros m.
  exact (virtual_serial_falls_through leave m _ ltac:(evaluate)
           ltac:(apply (bool_decide_unpack _); vm_compute; exact I)
           ltac:(evaluate) eq_refl).
Defined.

(** ** Flush that does not take place, on examples *)

(** Nothing is logged. *)
Lemma flush_noop_witness :
  let m := bench_machine (bench_store 0x80 2) [] in
  let m0 := eeprom_write_byte (wdt_disable m) 0x18 0 in
  flush m0 = m0 /\
  released (INT0_vect m 3500) = [] /\
  exists v, eelog (INT0_vect m 3500) = [(0x18, 0); (0x00, v)].
Proof.
  intros m.
  exact (flush_noop m 3500 (or_introl eq_refl)).
Defined.

(** ** The pointer that was never written, on an example *)

(** An erased store: both pointer bytes read [0xFF] and the log starts at
    [0x80]. *)
Lemma uninitialized_cursor_witness :
  let m := bench_machine ∅ [select_crp] in
  tlog_pointer m = 0x80 /\
  ((0 < nTransactions m)%nat -> tlog_pointer m < 0xFE0 ->
   exists rest, eelog (flush m) = (tlog_pointer m, 0xDD) :: rest).
Proof.
  intros m.
  exact (uninitialized_cursor m ltac:(evaluate) ltac:(evaluate) ltac:(evaluate)).
Defined.

(** ** The further properties on the concrete build *)

#[local] Existing Instance bench_menu.

(** One exchange is flushed from the start of the log region, with the
    terminal clock at 3.5 MHz; the application cell is left alone. *)
Lemma handler_frame_witness :
  let m := bench_machine (bench_store 0x80 2) [select_crp] in
  eeprom_read_byte (INT0_vect m 3500) 0x10 = eeprom_read_byte m 0x10.
Proof.
  intros m.
  refine (handler_frame m 3500 0x10 _ _ _ _ _ _ _);
    [evaluate ..|left; evaluate].
Defined.

(** Seven transactions counted before the reset, seven after the boot. *)
Lemma counter_survives_reset_witness :
  let m := set_nCounter (bench_machine (bench_store 0x80 2) [select_crp]) 7 in
  nCounter (InitSCD (INT0_vect m 3500) 0) = 7.
Proof.
  intros m.
  refine (counter_survives_reset m 3500 0 _ _ _ _ _ _);
    [evaluate ..|left; evaluate].
Defined.

(** The store names application 2; so does the boot after the reset. *)
Lemma application_survives_reset_witness :
  let m := bench_machine (bench_store 0x80 2) [select_crp] in
  let inp := {| GetButtonB := 1; CheckLCD := 0; menu_entry := 0 |} in
  selected (boot (INT0_vect m 3500) inp) = eeprom_read_byte m 0x10.
Proof.
  intros m inp.
  refine (application_survives_reset m 3500 inp _ _ _ _ _ _ _ _);
    [evaluate ..|left; evaluate|evaluate].
Defined.

(** The flag cell was never written and reads [0xFF]: the boot after a
    reset with terminal clock finds the warm-reset value. *)
Lemma warm_byte_at_next_boot_witness :
  let m := bench_machine (bench_store 0x80 2) [select_crp] in
  warmResetByte (InitSCD (INT0_vect m 3500) 0) =
    (if 3500 =? 0 then 0
     else if eeprom_read_byte m 0x00 =? 0xAA then 0 else u8 0xAA).
Proof.
  intros m.
  refine (warm_byte_at_next_boot m 3500 0 _ _ _ _ _ _);
    [evaluate ..|left; evaluate].
Defined.

(** The application id is found at offset 5 from the cursor. *)
Lemma log_read_back_witness :
  let m := bench_machine (bench_store 0x80 2) [select_crp; get_response_crp] in
  eeprom_read_byte (flush m) (0x80 + Z.of_nat 5) = 2.
Proof.
  intros m.
  refine (log_read_back m 5 2 _ _ _ _ _ _ _);
    [evaluate|evaluate|evaluate|evaluate|left; evaluate|left; evaluate|
     reflexivity].
Defined.

(** A first flush from [0x80] ends at [0x9C]; the next one starts at
    [0xA0]. *)
Lemma next_flush_starts_behind_witness :
  let m := bench_machine (bench_store 0x80 2) [select_crp] in
  let m2 := bench_machine (bench_store 0xA0 2) [get_response_crp] in
  tlog_pointer m2 = 8 * ((write_log m (tlog_pointer m)).2 / 8 + 1) /\
  exists W1 W2,
    eelog (flush m)
      = eelog m ++ W1 ++ pointer_cells (write_log m (tlog_pointer m)).2 /\
    eelog (flush m2)
      = eelog m2 ++ W2 ++ pointer_cells (write_log m2 (tlog_pointer m2)).2 /\
    Forall (fun w1 => Forall (fun w2 => w1.1 < w2.1) W2) W1.
Proof.
  intros m m2.
  exact (next_flush_starts_behind m m2 ltac:(evaluate) ltac:(evaluate)
           ltac:(evaluate) ltac:(evaluate) ltac:(evaluate) ltac:(evaluate)
           ltac:(evaluate) ltac:(evaluate) ltac:(evaluate) ltac:(evaluate)
           ltac:(evaluate)).
Defined.

(** A flush from [0x01E0] ends at [0x01FC]; [0x0100] is persisted. *)
Lemma page_rounding_drops_carry_witness :
  let m := bench_machine (bench_store 0x01E0 2) [select_crp] in
  stored_cursor (flush m)
    = (write_log m (tlog_pointer m)).2 - (write_log m (tlog_pointer m)).2 mod 256 /\
  stored_cursor (flush m) + 248 <= (write_log m (tlog_pointer m)).2.
Proof.
  intros m.
  exact (page_rounding_drops_carry m ltac:(evaluate) ltac:(evaluate)
           ltac:(evaluate) ltac:(evaluate) ltac:(evaluate) ltac:(evaluate)).
Defined.

(** Button B held, LCD working, the second entry of the menu chosen. *)
Lemma selection_persists_witness :
  let m := bench_machine ∅ [] in
  let inp := {| GetButtonB := 0; CheckLCD := 0; menu_entry := 1 |} in
  let m1 := boot m inp in
  selected m1 = 2 /\
  eeprom_read_byte m1 0x10 = 2 /\
  eelog m1 = [(0x10, 2)] /\
  wdt m1 = true /\
  forall (m2 : machine) (inp2 : boot_inputs),
    GetButtonB inp2 <> 0 ->
    eeprom_read_byte m2 0x10 = eeprom_read_byte m1 0x10 ->
    selected (boot m2 inp2) = 2 /\
    wdt (boot m2 inp2) = false /\
    eelog (boot m2 inp2) = eelog m2.
Proof.
  intros m inp.
  exact (selection_persists m inp ltac:(evaluate) ltac:(evaluate)
           ltac:(evaluate) ltac:(evaluate) ltac:(evaluate)).
Defined.

(** Button B held, no LCD. *)
Lemma request_without_lcd_witness :
  let m := bench_machine (bench_store 0x80 2) [] in
  let inp := {| GetButtonB := 0; CheckLCD := 1; menu_entry := 0 |} in
  exists m1,
    main stay m inp = call stay Terminal m1 Switching /\
    selected m1 = 6 /\
    eeprom_read_byte m1 0x10 = 6 /\
    eelog m1 = [(0x10, 0); (0x10, 6)] /\
    wdt m1 = true /\
    calls m1 = [].
Proof.
  intros m inp.
  exact (request_without_lcd stay m inp ltac:(evaluate) ltac:(evaluate)
           ltac:(evaluate) ltac:(evaluate) ltac:(evaluate)).
Defined.

(** Button C four times, then button D: the second entry. *)
Lemma menu_returns_an_entry_witness :
  let m := bench_machine ∅ [] in
  (2 = 0 <-> lcdAvailable m = 0) /\
  (lcdAvailable m <> 0 -> 1 <= 2 <= 8 /\ 2 = SelectApplication m (2 - 1)).
Proof.
  intros m.
  exact (@menu_returns_an_entry bench bench_menu m [2; 2; 2; 2; 1; 2] 2
           [LineEmpty; LineScroll; LineSelect; LineAvailable;
            LineApp 0; LineApp 1]
           [2] ltac:(evaluate) eq_refl).
Defined.

Lemma menu_returns_what_it_shows_witness :
  last [LineEmpty; LineScroll; LineSelect; LineAvailable; LineApp 0; LineApp 1]
    = Some (LineApp (2 - 1)).
Proof.
  exact (@menu_returns_what_it_shows bench bench_menu (bench_machine ∅ []) [2; 2; 2; 2; 1; 2] 2
           [LineEmpty; LineScroll; LineSelect; LineAvailable;
            LineApp 0; LineApp 1]
           [2] ltac:(evaluate) ltac:(evaluate) eq_refl).
Defined.

(** Button C again and again, never button D. *)
Lemma menu_waits_for_button_D_witness :
  exists pc shown,
    SelectApplication_loop (bench_machine ∅ []) [2; 0; 2; 2; 2; 2]
      = Waiting pc shown.
Proof.
  exact (@menu_waits_for_button_D bench bench_menu (bench_machine ∅ []) [2; 0; 2; 2; 2; 2]
           ltac:(evaluate) ltac:(repeat constructor)).
Defined.

(** Three prompts, two entries passed, button D on the third. *)
Lemma menu_key_sequence_witness :
  SelectApplication_loop (bench_machine ∅ []) ([2; 2; 2; 2; 2] ++ 1 :: [0; 2]) =
    Chosen (Z.of_nat 2 + 1)
           ([LineEmpty; LineScroll; LineSelect; LineAvailable]
              ++ map LineApp (seqZ 0 (Z.of_nat 2 + 1)))
           [0; 2].
Proof.
  exact (@menu_key_sequence bench bench_menu (bench_machine ∅ []) [2; 2; 2; 2; 2] 1 [0; 2] 2
           ltac:(evaluate) ltac:(evaluate) ltac:(evaluate) eq_refl
           ltac:(repeat constructor) eq_refl).
Defined.

(** Two exchanges whose streams cannot be built. *)
Lemma flush_without_streams_witness :
  let m := bench_machine (bench_store 0x80 2)
             [@Build_CRP bench None None; @Build_CRP bench None None] in
  eelog (flush m) =
    eelog m ++ place 0x80 (appstr ++ [2] ++ endstr)
      ++ pointer_cells (0x80 + 11) /\
  released (flush m) = released m ++ seq 0 2.
Proof.
  intros m.
  exact (flush_without_streams m ltac:(evaluate) ltac:(evaluate)
           ltac:(evaluate) ltac:(repeat constructor)).
Defined.

(** Eight entries: eleven presses of button C lead back to the start. *)
Lemma menu_goes_round_witness :
  menu_run AtScroll [] (repeat 2 11 ++ [1]) =
    menu_run AtScroll
             ([] ++ [LineSelect; LineAvailable]
                ++ map LineApp (seqZ 0 8) ++ [LineScroll])
             [1].
Proof.
  exact (@menu_goes_round bench_menu [] (repeat 2 11) [1]
           ltac:(evaluate) ltac:(evaluate) ltac:(repeat constructor)).
Defined.
